(** * Instaloader command line driver: a shallow embedding of
      [instaloader/__main__.py] and the properties of its orchestration.

    The development follows the source file top to bottom:
    - Python string helpers used by the driver ([endswith], [rstrip], [join]);
    - the filter compiler [filterstr_to_filterfunc] over a generic Python AST
      and the [ast.NodeTransformer] traversal it inherits;
    - the exceptions, the external collaborators and the state of a run;
    - [_main]: login, the target loop, the profile loop and the shutdown;
    - [main]: argument post-processing and the exit status.                     *)

From Stdlib Require Import String Ascii List Bool Arith ZArith Lia.
From stdpp Require Import base option list gmap strings pretty.
Import ListNotations.
Local Open Scope string_scope.
Local Open Scope list_scope.

(* ===================================================================== *)
(** ** Python exceptions seen by the driver                                *)
(* ===================================================================== *)

(** [InstaloaderException] is the base class of the library's faults;
    [ProfileNotExistsException] and [InvalidArgumentException] are imported
    next to it and derive from it.  The remaining constructors are Python
    built-ins. *)
Inductive exn : Type :=
| InstaloaderException (msg : string)
| ProfileNotExistsException (msg : string)
| InvalidArgumentException (msg : string)
| FileNotFoundError (msg : string)
| SyntaxError
| ValueError (msg : string)
| IndexError
| KeyboardInterrupt
| SystemExit (code : nat) (msg : string)
| OtherError (msg : string).

(** [isinstance(e, InstaloaderException)]. *)
Definition is_InstaloaderException (e : exn) : bool :=
  match e with
  | InstaloaderException _ | ProfileNotExistsException _
  | InvalidArgumentException _ => true
  | _ => false
  end.

(** [str(err)]. *)
Definition exn_str (e : exn) : string :=
  match e with
  | InstaloaderException m | ProfileNotExistsException m
  | InvalidArgumentException m | FileNotFoundError m | ValueError m | OtherError m
  | SystemExit _ m => m
  | SyntaxError => "invalid syntax"
  | IndexError => "string index out of range"
  | KeyboardInterrupt => ""
  end.

(** The result of running a piece of Python: a value or a raised exception. *)
Inductive outcome (A : Type) : Type :=
| Ret (a : A)
| Raise (e : exn).
Arguments Ret {A} a.
Arguments Raise {A} e.

(* ===================================================================== *)
(** ** Python string operations                                            *)
(* ===================================================================== *)

Module PyStr.

(** [s.endswith(suf)]: some tail of [s] is [suf]. *)
Fixpoint endswith (s suf : string) : bool :=
  String.eqb s suf ||
  match s with
  | EmptyString => false
  | String _ s' => endswith s' suf
  end.

(** [s.rstrip(c)] for a one-character argument. *)
Fixpoint rstrip (c : ascii) (s : string) : string :=
  match s with
  | EmptyString => EmptyString
  | String a s' =>
      match rstrip c s' with
      | EmptyString => if Ascii.eqb a c then EmptyString else String a EmptyString
      | r => String a r
      end
  end.

(** [s[0]], which raises [IndexError] on the empty string. *)
Definition index0 (s : string) : outcome ascii :=
  match s with
  | EmptyString => Raise IndexError
  | String a _ => Ret a
  end.

(** [s[1:]], the empty string when [s] is empty. *)
Definition from1 (s : string) : string :=
  match s with
  | EmptyString => EmptyString
  | String _ s' => s'
  end.

(** ['{:N}'.format('')]: [n] spaces. *)
Fixpoint spaces (n : nat) : string :=
  match n with
  | O => EmptyString
  | S n' => String " " (spaces n')
  end.

(** [sep.join(l)]. *)
Fixpoint join (sep : string) (l : list string) : string :=
  match l with
  | [] => ""
  | [x] => x
  | x :: xs => x +:+ sep +:+ join sep xs
  end.

End PyStr.

(* ===================================================================== *)
(** ** Target classification (the branch structure of the target loop)    *)
(* ===================================================================== *)

(** The branch of the target loop a raw target string selects. *)
Inductive Target : Type :=
| AccountFollowees (name : string)
| Tag (name : string)
| SpecialFeed
| SpecialStories
| SpecialSaved
| LocalDescriptorFile (path : string)
| AccountName (name : string).

(** The test of line 96 on the raw string:
    [(target.endswith('.json') or target.endswith('.json.xz'))]. *)
Definition has_descriptor_suffix (target : string) : bool :=
  PyStr.endswith target ".json" || PyStr.endswith target ".json.xz".

(** The [if]/[elif] chain of lines 121-138 on the stripped string.  The first
    test reads [target[0]], which raises [IndexError] on the empty string. *)
Definition classify_sigil (target : string) : outcome Target :=
  match PyStr.index0 target with
  | Raise e => Raise e
  | Ret c0 =>
      if Ascii.eqb c0 "@" then Ret (AccountFollowees (PyStr.from1 target))
      else if Ascii.eqb c0 "#" then Ret (Tag (PyStr.from1 target))
      else if String.eqb target ":feed" then Ret SpecialFeed
      else if String.eqb target ":stories" then Ret SpecialStories
      else if String.eqb target ":saved" then Ret SpecialSaved
      else Ret (AccountName target)
  end.

(** Lines 96-138: the file test on the raw string first ([and] evaluates
    [os.path.isfile] only after the suffix test), then the sigil chain on
    [target.rstrip('/')]. *)
Definition classify (isfile : string -> bool) (target : string) : outcome Target :=
  if has_descriptor_suffix target && isfile target
  then Ret (LocalDescriptorFile target)
  else classify_sigil (PyStr.rstrip "/" target).

(* ===================================================================== *)
(** ** The filter compiler: [filterstr_to_filterfunc]                      *)
(* ===================================================================== *)

Module Filter.

(** [ast.expr_context]. *)
Inductive expr_context : Type := Load | Store | Del.

(** A Python AST as [ast.NodeTransformer] sees it: a node is its class name
    and the values of its [_fields], in order.  A field value is a node, a
    list ([Seq]) or a plain value such as an identifier or a constant
    ([Atom]).  [ast.Name] is the one class the transformer treats specially,
    so it has a constructor of its own.  Python never nests a list directly
    in a list. *)
#[local] Unset Elimination Schemes.
Inductive ast : Type :=
| Atom (v : string)
| Name (id : string) (ctx : expr_context)
| Node (cls : string) (fields : list ast)
| Seq (items : list ast).
#[local] Set Elimination Schemes.

(** Constructors of the classes used below, fields in [_fields] order. *)
Definition ctx_node (c : expr_context) : ast :=
  Node (match c with Load => "Load" | Store => "Store" | Del => "Del" end) [].
Definition Expression (body : ast) : ast := Node "Expression" [body].
Definition Constant (v : string) : ast := Node "Constant" [Atom v; Atom "None"].
Definition Attribute (value : ast) (attr : string) (c : expr_context) : ast :=
  Node "Attribute" [value; Atom attr; ctx_node c].
Definition BinOp (left : ast) (op : string) (right : ast) : ast :=
  Node "BinOp" [left; Node op []; right].
Definition Compare (left : ast) (ops : list string) (comparators : list ast) : ast :=
  Node "Compare" [left; Seq (map (fun o => Node o []) ops); Seq comparators].
Definition comprehension (target iter : ast) (ifs : list ast) : ast :=
  Node "comprehension" [target; iter; Seq ifs; Atom "0"].
Definition ListComp (elt : ast) (generators : list ast) : ast :=
  Node "ListComp" [elt; Seq generators].

(** What the compiler needs of the class passed as [item_type]:
    [item_type.__name__] and [hasattr(item_type, name)]. *)
Record item_type : Type := {
  type_name : string;
  hasattr : string -> bool
}.

Definition modifying_fault (id : string) : exn :=
  InvalidArgumentException
    ("Invalid filter: Modifying variables (" +:+ id +:+ ") not allowed.").

Definition not_attribute_fault (ty : item_type) (id : string) : exn :=
  InvalidArgumentException
    ("Invalid filter: " +:+ id +:+ " not a " +:+ type_name ty +:+ " attribute.").

Definition is_Load (c : expr_context) : bool :=
  match c with Load => true | _ => false end.

(** [TransformFilterAst.visit_Name]. *)
Definition visit_Name (ty : item_type) (id : string) (ctx : expr_context) : outcome ast :=
  if negb (is_Load ctx) then Raise (modifying_fault id)
  else if String.eqb id "datetime" then Ret (Name id ctx)
  else if negb (hasattr ty id) then Raise (not_attribute_fault ty id)
  else Ret (Attribute (Name "item" Load) id Load).

(** [NodeTransformer.visit]: [visit_Name] on a [Name], [generic_visit] on
    every other node, which visits the fields in order, the items of a list
    from left to right, and stops at the first exception. *)
Fixpoint visit (ty : item_type) (t : ast) : outcome ast :=
  let visit_all :=
    fix visit_all (l : list ast) : outcome (list ast) :=
      match l with
      | [] => Ret []
      | x :: xs =>
          match visit ty x with
          | Raise e => Raise e
          | Ret x' =>
              match visit_all xs with
              | Raise e => Raise e
              | Ret xs' => Ret (x' :: xs')
              end
          end
      end in
  match t with
  | Atom v => Ret (Atom v)
  | Name id ctx => visit_Name ty id ctx
  | Node cls fields =>
      match visit_all fields with
      | Raise e => Raise e
      | Ret fields' => Ret (Node cls fields')
      end
  | Seq items =>
      match visit_all items with
      | Raise e => Raise e
      | Ret items' => Ret (Seq items')
      end
  end.

(** The list traversal of [visit], named. *)
Fixpoint visit_all (ty : item_type) (l : list ast) : outcome (list ast) :=
  match l with
  | [] => Ret []
  | x :: xs =>
      match visit ty x with
      | Raise e => Raise e
      | Ret x' =>
          match visit_all ty xs with
          | Raise e => Raise e
          | Ret xs' => Ret (x' :: xs')
          end
      end
  end.

(** [filterstr_to_filterfunc], lines 48-56, up to the code object.  [parse]
    is [ast.parse(_, filename, mode='eval')] and [compile] the built-in
    [compile(_, filename, mode='eval')]; each of them returns or raises (a
    [SyntaxError], a [ValueError], ...).  Python evaluates the argument of
    [compile] first: the text is parsed, the tree is transformed, and the
    transformed tree is compiled.  The code object that [compile] returns is
    identified with the tree it was compiled from: it is what [filterfunc]
    evaluates. *)
Definition filterstr_to_filterfunc
    (parse : string -> outcome ast) (compile : ast -> outcome unit)
    (filter_str : string) (ty : item_type)
  : outcome ast :=
  match parse filter_str with
  | Raise e => Raise e
  | Ret tree =>
      match visit ty tree with
      | Raise e => Raise e
      | Ret tree' =>
          match compile tree' with
          | Raise e => Raise e
          | Ret _ => Ret tree'
          end
      end
  end.

(** *** Vocabulary of the specification *)

(** The [Name] nodes of a tree, in the order the transformer meets them. *)
Fixpoint names (t : ast) : list (string * expr_context) :=
  match t with
  | Atom _ => []
  | Name id ctx => [(id, ctx)]
  | Node _ fields => flat_map names fields
  | Seq items => flat_map names items
  end.

(** A bare name that is read and is neither the whitelisted [datetime] nor
    an attribute of the item type. *)
Definition undeclared (ty : item_type) (n : string * expr_context) : bool :=
  is_Load (snd n) && negb (String.eqb (fst n) "datetime") && negb (hasattr ty (fst n)).

(** A bare name that is bound, assigned or deleted. *)
Definition modified (n : string * expr_context) : bool := negb (is_Load (snd n)).

Definition references_undeclared (ty : item_type) (t : ast) : bool :=
  existsb (undeclared ty) (names t).

Definition modifies_a_name (t : ast) : bool := existsb modified (names t).




End Filter.

(* ===================================================================== *)
(** ** The run: state, external collaborators and the monad of [_main]     *)
(* ===================================================================== *)

Module Driver.

Import Filter.

(** What [load_structure_from_file] returns, by class: a [Post], a
    [StoryItem], a [Profile], or an instance of some other class.  [repr] is
    the item's [str()]. *)
Inductive structure : Type :=
| PostS (repr : string)
| StoryItemS (repr : string)
| ProfileS (username : string)
| OtherS (class_name : string).

Definition structure_str (x : structure) : string :=
  match x with
  | PostS r | StoryItemS r => r
  | ProfileS u => u
  | OtherS c => c
  end.

(** The two loader objects of a run: [instaloader] itself and the
    [anonymous_loader] bound by [with instaloader.anonymous_copy()]. *)
Inductive loader : Type := TheLoader | AnonymousLoader.

(** The arguments of one [download_profile] call.  An argument the call site
    does not pass is [None]; the callee's default applies to it. *)
Record profile_args : Type := {
  pa_target : string;
  pa_profile_pic : bool;
  pa_profile_pic_only : bool;
  pa_fast_update : bool;
  pa_stories : option bool;
  pa_stories_only : option bool;
  pa_post_filter : option ast;
  pa_storyitem_filter : option (option ast)
}.

(** The calls the driver makes on its collaborators. *)
Inductive event : Type :=
| ELoadSession (username : string) (sessionfile : option string)
| ETestLogin
| ELogin (username password : string)
| EInteractiveLogin (username : string)
| ELoadStructure (path : string)
| EFilter (f : ast) (item : structure)
| EDownloadPost (item : structure) (dirname : string)
| EDownloadStoryItem (item : structure) (dirname : string)
| EFromUsername (name : string)
| EGetFollowees (name : string)
| EDownloadHashtag (hashtag : string) (max_count : option Z) (fast_update : bool)
                   (post_filter : option ast)
| EDownloadFeedPosts (fast_update : bool) (max_count : option Z)
                     (post_filter : option ast)
| EDownloadStories (fast_update : bool) (storyitem_filter : option ast)
| EDownloadSavedPosts (fast_update : bool) (max_count : option Z)
                      (post_filter : option ast)
| EDownloadProfile (who : loader) (args : profile_args)
| EAnonymousCopy
| ESaveSession (sessionfile : option string)
| ENewLoader
| EClose.

(** An error record: the [extra_info] the boundary was entered with (the
    target, when given) and the fault it caught. *)
Definition ErrorRecord : Type := option string * exn.

Section Run.

(** The world outside the driver: the remote service, the file system and
    the session held by the loader. *)
Context {W : Type}.

(** External collaborators.  Each takes the world and returns its answer
    (or the exception it raises) and the world after the call. *)
Record Externals : Type := {
  (** [os.path.isfile], [os.path.dirname], [os.path.basename(sys.argv[0])] *)
  x_isfile : string -> W -> bool;
  x_dirname : string -> string;
  x_argv0 : string;
  (** [int(args.count)] *)
  x_int : string -> outcome Z;
  (** [str.lower] *)
  x_lower : string -> string;
  (** [ast.parse(_, mode='eval')], the built-in [compile(_, mode='eval')]
      and the classes [Post], [StoryItem] *)
  x_parse : string -> outcome ast;
  x_compile : ast -> outcome unit;
  x_Post : item_type;
  x_StoryItem : item_type;
  (** [instaloader.context.is_logged_in] *)
  x_is_logged_in : W -> bool;
  (** calls that return [None] *)
  x_call : event -> W -> outcome unit * W;
  (** [instaloader.test_login()] *)
  x_test_login : W -> outcome (option string) * W;
  (** [load_structure_from_file(instaloader.context, target)] *)
  x_load_structure : string -> W -> outcome structure * W;
  (** [profile.get_followees()], as the list of the followees' usernames *)
  x_get_followees : string -> W -> outcome (list string) * W;
  (** [filterfunc(item)]: [bool(eval(compiled_filter, ...))] *)
  x_filter : ast -> structure -> W -> outcome bool * W;
  (** the order in which a [for] loop and [join] go through a [set] *)
  x_set_order : gset string -> list string;
  x_set_order_perm : forall s, x_set_order s ≡ₚ elements s
}.

Variable X : Externals.

(** The state of a run.  [trace] lists the calls made on collaborators,
    [log] the messages given to [instaloader.context.log], [stderr] the
    lines printed to [sys.stderr], [error_log] the records made by the
    failure boundaries, and [profiles] is the local set of [_main]. *)
Record state : Type := {
  world : W;
  trace : list event;
  log : list string;
  stderr : list string;
  error_log : list ErrorRecord;
  profiles : gset string
}.

Definition initial_state (w : W) : state :=
  {| world := w; trace := []; log := []; stderr := []; error_log := [];
     profiles := ∅ |}.

Definition M (A : Type) : Type := state -> outcome A * state.

Definition ret {A} (a : A) : M A := fun s => (Ret a, s).

Definition raise {A} (e : exn) : M A := fun s => (Raise e, s).

Definition bind {A B} (m : M A) (k : A -> M B) : M B :=
  fun s => match m s with
           | (Ret a, s') => k a s'
           | (Raise e, s') => (Raise e, s')
           end.

(** [try: m  except <handler>]; a handler re-raises what it does not handle. *)
Definition catch {A} (m : M A) (handler : exn -> M A) : M A :=
  fun s => match m s with
           | (Raise e, s') => handler e s'
           | r => r
           end.

Definition lift {A} (o : outcome A) : M A := fun s => (o, s).

Definition set_world (w : W) (s : state) : state :=
  {| world := w; trace := trace s; log := log s; stderr := stderr s;
     error_log := error_log s; profiles := profiles s |}.

Definition add_event (ev : event) (s : state) : state :=
  {| world := world s; trace := trace s ++ [ev]; log := log s; stderr := stderr s;
     error_log := error_log s; profiles := profiles s |}.

Definition add_log (msg : string) (s : state) : state :=
  {| world := world s; trace := trace s; log := log s ++ [msg]; stderr := stderr s;
     error_log := error_log s; profiles := profiles s |}.

Definition add_stderr (msg : string) (s : state) : state :=
  {| world := world s; trace := trace s; log := log s; stderr := stderr s ++ [msg];
     error_log := error_log s; profiles := profiles s |}.

Definition record_error (r : ErrorRecord) (s : state) : state :=
  {| world := world s; trace := trace s; log := log s; stderr := stderr s;
     error_log := error_log s ++ [r]; profiles := profiles s |}.

Definition set_profiles (p : gset string) (s : state) : state :=
  {| world := world s; trace := trace s; log := log s; stderr := stderr s;
     error_log := error_log s; profiles := p |}.

(** A call on a collaborator: noted in the trace, then answered. *)
Definition perform {A} (ev : event) (f : W -> outcome A * W) : M A :=
  fun s => let '(o, w) := f (world s) in (o, set_world w (add_event ev s)).

Definition call (ev : event) : M unit := perform ev (x_call X ev).

(** The construction of a loader object: noted in the trace. *)
Definition construct (ev : event) : M unit := fun s => (Ret tt, add_event ev s).

Definition context_log (msg : string) : M unit := fun s => (Ret tt, add_log msg s).

Definition print_stderr (msg : string) : M unit := fun s => (Ret tt, add_stderr msg s).

Definition is_logged_in : M bool := fun s => (Ret (x_is_logged_in X (world s)), s).

Definition isfile (path : string) : M bool := fun s => (Ret (x_isfile X path (world s)), s).

(** Modelled from the spec: [instaloader.context.error_catcher], defined in
    [instaloadercontext.py], which is not part of the sources at hand.  It
    is the scoped failure boundary: a per-target fault raised inside it is
    caught, recorded as an [ErrorRecord] together with the [extra_info] the
    boundary was given, and execution goes on after the [with] block.  The
    per-target faults are the library's ([InstaloaderException]); an
    interrupt and any fault that is not classified pass through. *)
Definition error_catcher (extra_info : option string) (body : M unit) : M unit :=
  fun s => match body s with
           | (Raise e, s') =>
               if is_InstaloaderException e
               then (Ret tt, record_error (extra_info, e) s')
               else (Raise e, s')
           | r => r
           end.

(** [for x in l: body(x)]. *)
Fixpoint for_each {A} (body : A -> M unit) (l : list A) : M unit :=
  match l with
  | [] => ret tt
  | x :: xs => bind (body x) (fun _ => for_each body xs)
  end.

Notation "x <- m ; k" := (bind m (fun x => k))
  (at level 20, m at level 100, k at level 200, only parsing).
Notation "m ;;; k" := (bind m (fun _ => k))
  (at level 100, k at level 200, right associativity, only parsing).

(* ----------------------------------------------------------------- *)
(** *** [usage_string]                                                 *)

Definition nl : string := String (ascii_of_nat 10) EmptyString.
Definition dq : string := String (ascii_of_nat 34) EmptyString.

Definition usage_string : string :=
  let argv0 := x_argv0 X in
  let argv0 := if String.eqb argv0 "__main__.py" then "instaloader" else argv0 in
  let pad := PyStr.spaces (String.length argv0) in
  nl +:+ argv0 +:+ " [--comments] [--geotags] [--stories]" +:+ nl +:+
  pad +:+ " [--login YOUR-USERNAME] [--fast-update]" +:+ nl +:+
  pad +:+ " profile | " +:+ dq +:+ "#hashtag" +:+ dq +:+ " | :stories | :feed | :saved" +:+ nl +:+
  argv0 +:+ " --help".

(* ----------------------------------------------------------------- *)
(** *** [_main]                                                        *)

(** The arguments of [_main] after the loader. *)
Record main_args : Type := {
  targetlist : list string;
  username : option string;
  password : option string;
  sessionfile : option string;
  max_count : option Z;
  profile_pic : bool;
  profile_pic_only : bool;
  fast_update : bool;
  stories : bool;
  stories_only : bool;
  post_filter_str : option string;
  storyitem_filter_str : option string
}.

(** The two compiled filters, [post_filter] and [storyitem_filter]. *)
Record filters : Type := {
  post_filter : option ast;
  storyitem_filter : option ast
}.

(** Lines 69-76. *)
Definition make_filter (what : string) (src : option string) (ty : item_type)
  : M (option ast) :=
  match src with
  | None => ret None
  | Some str =>
      f <- lift (filterstr_to_filterfunc (x_parse X) (x_compile X) str ty) ;
      context_log ("Only download " +:+ what +:+ " with property " +:+ dq +:+ str +:+ dq +:+ ".") ;;;
      ret (Some f)
  end.

Definition compile_filters (a : main_args) : M filters :=
  pf <- make_filter "posts" (post_filter_str a) (x_Post X) ;
  sf <- make_filter "storyitems" (storyitem_filter_str a) (x_StoryItem X) ;
  ret {| post_filter := pf; storyitem_filter := sf |}.

(** Lines 78-90. *)
Definition login_phase (a : main_args) : M unit :=
  match username a with
  | None => ret tt
  | Some user =>
      catch (call (ELoadSession user (sessionfile a)))
            (fun err =>
               match err with
               | FileNotFoundError _ =>
                   match sessionfile a with
                   | Some _ => print_stderr (exn_str err)
                   | None => ret tt
                   end ;;;
                   context_log "Session file does not exist yet - Logging in."
               | _ => raise err
               end) ;;;
      logged <- is_logged_in ;
      relogin <- (if negb logged then ret true
                  else who <- perform ETestLogin (x_test_login X) ;
                       ret (negb (bool_decide (Some user = who)))) ;
      (if relogin
       then match password a with
            | Some pw => call (ELogin user pw)
            | None => call (EInteractiveLogin user)
            end
       else ret tt) ;;;
      context_log ("Logged in as " +:+ user +:+ ".")
  end.

(** [filter is not None and not filter(item)]. *)
Definition rejected_by (f : option ast) (item : structure) : M bool :=
  match f with
  | None => ret false
  | Some code => b <- perform (EFilter code item) (x_filter X code item) ; ret (negb b)
  end.

(** Lines 98-116: the body of the boundary of a descriptor file.  The
    [continue] of a skipped item leaves the [with] block normally. *)
Definition file_target (fs : filters) (target : string) : M unit :=
  structure <- perform (ELoadStructure target) (x_load_structure X target) ;
  match structure with
  | PostS _ =>
      skip <- rejected_by (post_filter fs) structure ;
      if skip
      then context_log ("<" +:+ structure_str structure +:+ " (" +:+ target +:+ ") skipped>")
      else context_log ("Downloading " +:+ structure_str structure +:+ " (" +:+ target +:+ ")") ;;;
           call (EDownloadPost structure (x_dirname X target))
  | StoryItemS _ =>
      skip <- rejected_by (storyitem_filter fs) structure ;
      if skip
      then context_log ("<" +:+ structure_str structure +:+ " (" +:+ target +:+ ") skipped>")
      else context_log ("Attempting to download " +:+ structure_str structure +:+ " (" +:+ target +:+ ")") ;;;
           call (EDownloadStoryItem structure (x_dirname X target))
  | ProfileS name =>
      raise (InvalidArgumentException
               ("Profile JSON are ignored. Pass " +:+ dq +:+ name +:+ dq +:+ " to download that profile"))
  | OtherS cls =>
      raise (InvalidArgumentException (cls +:+ " JSON file not supported as target"))
  end.

Definition add_profiles (names : list string) : M unit :=
  fun s => (Ret tt, set_profiles (profiles s ∪ list_to_set names) s).

(** Lines 121-138: the body of the boundary of a stripped target. *)
Definition sigil_target (a : main_args) (fs : filters) (target : string) : M unit :=
  t <- lift (classify_sigil target) ;
  match t with
  | AccountFollowees name =>
      context_log ("Retrieving followees of " +:+ name +:+ "...") ;;;
      call (EFromUsername name) ;;;
      followees <- perform (EGetFollowees name) (x_get_followees X name) ;
      add_profiles followees
  | Tag name => call (EDownloadHashtag name (max_count a) (fast_update a) (post_filter fs))
  | SpecialFeed => call (EDownloadFeedPosts (fast_update a) (max_count a) (post_filter fs))
  | SpecialStories => call (EDownloadStories (fast_update a) (storyitem_filter fs))
  | SpecialSaved => call (EDownloadSavedPosts (fast_update a) (max_count a) (post_filter fs))
  | AccountName name => add_profiles [name]
  | LocalDescriptorFile _ => ret tt
  end.

(** The extra_info and the body of the boundary one raw target is run in:
    lines 96-98 for a descriptor file, lines 119-120 otherwise. *)
Definition target_key (target : string) (is_file : bool) : string :=
  if is_file then target else PyStr.rstrip "/" target.

Definition target_body (a : main_args) (fs : filters) (target : string) (is_file : bool)
  : M unit :=
  if is_file then file_target fs target
  else sigil_target a fs (PyStr.rstrip "/" target).

(** Lines 95-138: one turn of the target loop. *)
Definition target_step (a : main_args) (fs : filters) (target : string) : M unit :=
  is_file <- (if has_descriptor_suffix target then isfile target else ret false) ;
  error_catcher (Some (target_key target is_file)) (target_body a fs target is_file).

Definition authenticated_args (a : main_args) (fs : filters) (target : string) : profile_args :=
  {| pa_target := target; pa_profile_pic := profile_pic a;
     pa_profile_pic_only := profile_pic_only a; pa_fast_update := fast_update a;
     pa_stories := Some (stories a); pa_stories_only := Some (stories_only a);
     pa_post_filter := post_filter fs;
     pa_storyitem_filter := Some (storyitem_filter fs) |}.

Definition anonymous_args (a : main_args) (fs : filters) (target : string) : profile_args :=
  {| pa_target := target; pa_profile_pic := profile_pic a;
     pa_profile_pic_only := profile_pic_only a; pa_fast_update := fast_update a;
     pa_stories := None; pa_stories_only := None;
     pa_post_filter := post_filter fs;
     pa_storyitem_filter := None |}.

(** Lines 152-155: the retry on a copy of the loader without credentials;
    its boundary is entered without extra_info. *)
Definition anonymous_retry (a : main_args) (fs : filters) (target : string) : M unit :=
  construct EAnonymousCopy ;;;
  error_catcher None (call (EDownloadProfile AnonymousLoader (anonymous_args a fs target))).

(** Lines 144-157: the body of the boundary of one profile. *)
Definition profile_body (a : main_args) (fs : filters) (target : string) : M unit :=
  catch (call (EDownloadProfile TheLoader (authenticated_args a fs target)))
        (fun err =>
           match err with
           | ProfileNotExistsException _ =>
               logged <- is_logged_in ;
               if logged
               then context_log (exn_str err) ;;;
                    context_log "Trying again anonymously, helps in case you are just blocked." ;;;
                    anonymous_retry a fs target
               else raise err
           | _ => raise err
           end).

(** Lines 142-157: one turn of the profile loop. *)
Definition profile_step (a : main_args) (fs : filters) (target : string) : M unit :=
  error_catcher (Some target) (profile_body a fs target).

(** Lines 95-157: what the [try] block protects. *)
Definition loops (a : main_args) (fs : filters) : M unit :=
  for_each (target_step a fs) (targetlist a) ;;;
  (fun s =>
     let order := x_set_order X (profiles s) in
     ((if (1 <? size (profiles s))%nat
       then context_log ("Downloading " +:+ pretty (size (profiles s)) +:+ " profiles: "
                         +:+ PyStr.join " " order)
       else ret tt) ;;;
      for_each (profile_step a fs) order) s).

(** Lines 158-159. *)
Definition on_interrupt (err : exn) : M unit :=
  match err with
  | KeyboardInterrupt => print_stderr (nl +:+ "Interrupted by user.")
  | _ => raise err
  end.

(** Lines 160-170: save the session, then tell a user who gave no target. *)
Definition shutdown (a : main_args) : M unit :=
  logged <- is_logged_in ;
  (if logged then call (ESaveSession (sessionfile a)) else ret tt) ;;;
  match targetlist a with
  | [] =>
      logged <- is_logged_in ;
      if logged
      then context_log "No targets were specified, thus nothing has been downloaded."
      else context_log ("usage:" +:+ usage_string)
  | _ :: _ => ret tt
  end.

(** Lines 92-170: everything after the login. *)
Definition after_login (a : main_args) (fs : filters) : M unit :=
  (fun s => (Ret tt, set_profiles ∅ s)) ;;;
  catch (loops a fs) on_interrupt ;;;
  shutdown a.

Definition _main (a : main_args) : M unit :=
  fs <- compile_filters a ;
  login_phase a ;;;
  after_login a fs.

(* ----------------------------------------------------------------- *)
(** *** [main]                                                         *)

(** The parsed command line, as far as [main] itself reads it.  The other
    options only reach the constructor of the loader. *)
Record cli_args : Type := {
  arg_profile : list string;
  arg_login : option string;
  arg_password : option string;
  arg_sessionfile : option string;
  arg_count : option string;
  arg_no_profile_pic : bool;
  arg_profile_pic_only : bool;
  arg_fast_update : bool;
  arg_stories : bool;
  arg_stories_only : bool;
  arg_post_filter : option string;
  arg_storyitem_filter : option string;
  arg_no_captions : bool;
  arg_post_metadata_txt : option (list string);
  arg_storyitem_metadata_txt : option (list string)
}.

(** ['\n'.join(l) if l else None], and the truth value of the result. *)
Definition metadata_pattern (l : option (list string)) : option string :=
  match l with
  | None | Some [] => None
  | Some l => Some (PyStr.join nl l)
  end.

Definition truthy (p : option string) : bool :=
  match p with
  | None => false
  | Some s => negb (String.eqb s "")
  end.

Definition in_list (x : string) (l : list string) : bool :=
  existsb (String.eqb x) l.

(** Lines 291-295: the value of [args.stories] after the check. *)
Definition check_stories (args : cli_args) : M bool :=
  match arg_login args with
  | None =>
      if arg_stories args || arg_stories_only args
      then print_stderr "--login=USERNAME required to download stories." ;;;
           if arg_stories_only args then raise (SystemExit 1 "") else ret false
      else ret (arg_stories args)
  | Some _ => ret (arg_stories args)
  end.

(** Lines 297-299. *)
Definition check_removed_targets (args : cli_args) : M unit :=
  if in_list ":feed-all" (arg_profile args) || in_list ":feed-liked" (arg_profile args)
  then raise (SystemExit 1 (":feed-all and :feed-liked were removed. Use :feed as target and "
                            +:+ "eventually --post-filter=viewer_has_liked."))
  else ret tt.

(** Lines 301-310. *)
Definition check_captions (args : cli_args) : M unit :=
  if arg_no_captions args
  then if negb (truthy (metadata_pattern (arg_post_metadata_txt args))
                || truthy (metadata_pattern (arg_storyitem_metadata_txt args)))
       then ret tt
       else raise (SystemExit 1 ("--no-captions and --post-metadata-txt or "
                                 +:+ "--storyitem-metadata-txt given; That contradicts."))
  else ret tt.

(** Lines 322-334: the arguments handed to [_main]. *)
Definition main_args_of (args : cli_args) (stories_now : bool) (count : option Z)
  : main_args :=
  {| targetlist := arg_profile args;
     username := option_map (x_lower X) (arg_login args);
     password := arg_password args;
     sessionfile := arg_sessionfile args;
     max_count := count;
     profile_pic := negb (arg_no_profile_pic args);
     profile_pic_only := arg_profile_pic_only args;
     fast_update := arg_fast_update args;
     stories := stories_now;
     stories_only := arg_stories_only args;
     post_filter_str := arg_post_filter args;
     storyitem_filter_str := arg_storyitem_filter args |}.

(** Lines 291-335: the body of the [try] of [main]. *)
Definition main_body (args : cli_args) : M unit :=
  stories_now <- check_stories args ;
  check_removed_targets args ;;;
  check_captions args ;;;
  construct ENewLoader ;;;
  count <- match arg_count args with
           | None => ret None
           | Some c => n <- lift (x_int X c) ; ret (Some n)
           end ;
  _main (main_args_of args stories_now count) ;;;
  call EClose.

(** Lines 336-337. *)
Definition fatal (err : exn) : M unit :=
  if is_InstaloaderException err
  then raise (SystemExit 1 ("Fatal error: " +:+ exn_str err))
  else raise err.

Definition main (args : cli_args) : M unit := catch (main_body args) fatal.

(** The exit status of the process: 0 when [main] returns, the code of a
    [SystemExit], and the interpreter's non-zero status for any other
    exception that escapes. *)
Definition exit_status (o : outcome unit) : nat :=
  match o with
  | Ret _ => 0
  | Raise (SystemExit code _) => code
  | Raise _ => 1
  end.

End Run.

Arguments state W : clear implicits.
Arguments Externals W : clear implicits.
Arguments M W A : clear implicits.

End Driver.

(* ===================================================================== *)
(** ** Vocabulary of the properties of a run                               *)
(* ===================================================================== *)

Module Observations.

Import Filter Driver.

Section Observations.

Context {W : Type}.
Variable X : Externals W.

(** Whatever [m] does, it only adds calls that satisfy [P] to the trace. *)
Definition emits {A} (P : event -> Prop) (m : M W A) : Prop :=
  forall s o s', m s = (o, s') ->
    exists evs, trace s' = trace s ++ evs /\ Forall P evs.

(** What leaves [m] is no per-target fault. *)
Definition no_escape {A} (m : M W A) : Prop :=
  forall s e s', m s = (Raise e, s') -> is_InstaloaderException e = false.

(** The test of line 96 in a state of the run. *)
Definition is_descriptor_file (target : string) (s : state W) : bool :=
  has_descriptor_suffix target && x_isfile X target (world s).

(** The state after the first attempt on [target] has raised in the world
    [w1]. *)
Definition after_first_attempt (a : main_args) (fs : filters)
    (target : string) (w1 : W) (s : state W) : state W :=
  set_world w1 (add_event (EDownloadProfile TheLoader (authenticated_args a fs target)) s).

(** [m] leaves the error log as it is. *)
Definition keeps_errors {A} (m : M W A) : Prop :=
  forall s o s', m s = (o, s') -> error_log s' = error_log s.

(** A batch of targets as the specification describes it: the targets are
    taken in turn, each in the state its predecessor has left; a target whose
    processing raises a per-target fault leaves one error record, with the
    target and the cause, and the batch goes on; [errs] lists the records of
    the failed targets, in order. *)
Inductive target_batch (a : main_args) (fs : filters)
  : list string -> state W -> list ErrorRecord -> state W -> Prop :=
| batch_done s : target_batch a fs [] s [] s
| batch_processed t ts s s1 errs s2 :
    target_body X a fs t (is_descriptor_file t s) s = (Ret tt, s1) ->
    target_batch a fs ts s1 errs s2 ->
    target_batch a fs (t :: ts) s errs s2
| batch_failed t ts s s1 e errs s2 :
    target_body X a fs t (is_descriptor_file t s) s = (Raise e, s1) ->
    is_InstaloaderException e = true ->
    target_batch a fs ts
      (record_error (Some (target_key t (is_descriptor_file t s)), e) s1) errs s2 ->
    target_batch a fs (t :: ts) s
      ((Some (target_key t (is_descriptor_file t s)), e) :: errs) s2.

(** The state in which the profile loop starts: the accounts are announced
    when there is more than one (lines 139-140). *)
Definition announced (s : state W) : state W :=
  if (1 <? size (profiles s))%nat
  then add_log ("Downloading " +:+ pretty (size (profiles s)) +:+ " profiles: "
                +:+ PyStr.join " " (x_set_order X (profiles s))) s
  else s.

(** A batch of accounts as the specification describes it, with the
    fallback of the code: the accounts are taken in turn, each in the state
    its predecessor has left.  An account whose download succeeds, at once
    or by the anonymous retry, leaves no record.  One whose download raises
    a per-target fault that leads to no retry leaves one record, with the
    account and the cause.  One whose anonymous retry raises a per-target
    fault leaves the one record that the boundary of the retry has made,
    with the cause and without the account.  [errs] lists the records, in
    order. *)
Inductive profile_batch (a : main_args) (fs : filters)
  : list string -> state W -> list ErrorRecord -> state W -> Prop :=
| accounts_done s : profile_batch a fs [] s [] s
| account_downloaded t ts s s1 errs s2 :
    profile_body X a fs t s = (Ret tt, s1) ->
    error_log s1 = error_log s ->
    profile_batch a fs ts s1 errs s2 ->
    profile_batch a fs (t :: ts) s errs s2
| account_failed t ts s s1 e errs s2 :
    profile_body X a fs t s = (Raise e, s1) ->
    is_InstaloaderException e = true ->
    profile_batch a fs ts (record_error (Some t, e) s1) errs s2 ->
    profile_batch a fs (t :: ts) s ((Some t, e) :: errs) s2
| account_retry_failed t ts s s1 e errs s2 :
    profile_body X a fs t s = (Ret tt, s1) ->
    error_log s1 = error_log s ++ [(None, e)] ->
    profile_batch a fs ts s1 errs s2 ->
    profile_batch a fs (t :: ts) s ((None, e) :: errs) s2.

End Observations.

(** The calls of the login (lines 78-90). *)
Inductive login_event (a : main_args) : event -> Prop :=
| le_load_session user :
    username a = Some user -> login_event a (ELoadSession user (sessionfile a))
| le_test_login : login_event a ETestLogin
| le_login user pw : username a = Some user -> login_event a (ELogin user pw)
| le_interactive_login user :
    username a = Some user -> login_event a (EInteractiveLogin user).

(** The calls of the two loops (lines 95-157). *)
Inductive loop_event (a : main_args) : event -> Prop :=
| lo_load_structure path : loop_event a (ELoadStructure path)
| lo_filter f item : loop_event a (EFilter f item)
| lo_download_post item dir : loop_event a (EDownloadPost item dir)
| lo_download_storyitem item dir : loop_event a (EDownloadStoryItem item dir)
| lo_from_username name : loop_event a (EFromUsername name)
| lo_get_followees name : loop_event a (EGetFollowees name)
| lo_download_hashtag tag n fu pf : loop_event a (EDownloadHashtag tag n fu pf)
| lo_download_feed_posts fu n pf : loop_event a (EDownloadFeedPosts fu n pf)
| lo_download_stories fu sf : loop_event a (EDownloadStories fu sf)
| lo_download_saved_posts fu n pf : loop_event a (EDownloadSavedPosts fu n pf)
| lo_download_profile fs target :
    loop_event a (EDownloadProfile TheLoader (authenticated_args a fs target))
| lo_anonymous_copy : loop_event a EAnonymousCopy
| lo_retry fs target :
    loop_event a (EDownloadProfile AnonymousLoader (anonymous_args a fs target)).

(** The calls of [_main]. *)
Definition main_event (a : main_args) (ev : event) : Prop :=
  login_event a ev \/ loop_event a ev \/ ev = ESaveSession (sessionfile a).

(** The calls of [main]. *)
Definition cli_event {W} (X : Externals W) (args : cli_args) (ev : event) : Prop :=
  ev = ENewLoader \/ ev = EClose \/
  exists stories_now count, main_event (main_args_of X args stories_now count) ev.

Definition is_retry (ev : event) : bool :=
  match ev with
  | EDownloadProfile AnonymousLoader _ => true
  | _ => false
  end.

(** The number of downloads made through an anonymous copy. *)
Definition count_retries (tr : list event) : nat := length (List.filter is_retry tr).

Definition is_save (ev : event) : bool :=
  match ev with
  | ESaveSession _ => true
  | _ => false
  end.

(** The number of calls of [save_session_to_file]. *)
Definition count_saves (tr : list event) : nat := length (List.filter is_save tr).

(** A download through the anonymous copy passes neither [stories] nor
    [stories_only] nor a storyitem filter. *)
Definition retry_without_stories (ev : event) : Prop :=
  match ev with
  | EDownloadProfile AnonymousLoader args =>
      pa_stories args = None /\ pa_stories_only args = None /\
      pa_storyitem_filter args = None
  | _ => True
  end.

(** The session calls are made for the user [u]. *)
Definition session_user_is (u : string) (ev : event) : Prop :=
  match ev with
  | ELoadSession u' _ | ELogin u' _ | EInteractiveLogin u' => u' = u
  | _ => True
  end.

(** The command line [args] with the login name [name]. *)
Definition set_login (args : cli_args) (name : string) : cli_args :=
  {| arg_profile := arg_profile args; arg_login := Some name;
     arg_password := arg_password args; arg_sessionfile := arg_sessionfile args;
     arg_count := arg_count args; arg_no_profile_pic := arg_no_profile_pic args;
     arg_profile_pic_only := arg_profile_pic_only args;
     arg_fast_update := arg_fast_update args; arg_stories := arg_stories args;
     arg_stories_only := arg_stories_only args; arg_post_filter := arg_post_filter args;
     arg_storyitem_filter := arg_storyitem_filter args;
     arg_no_captions := arg_no_captions args;
     arg_post_metadata_txt := arg_post_metadata_txt args;
     arg_storyitem_metadata_txt := arg_storyitem_metadata_txt args |}.

(** A [Profile], or an instance of a class that is no target. *)
Definition unsupported (st : structure) : bool :=
  match st with
  | ProfileS _ | OtherS _ => true
  | PostS _ | StoryItemS _ => false
  end.

Definition no_targets_message : string :=
  "No targets were specified, thus nothing has been downloaded.".

End Observations.

(* ===================================================================== *)
(** ** Further vocabulary: compiled names, downloads, state relations      *)
(* ===================================================================== *)

Module RunVocabulary.

Import Filter Driver.

(** What a bare name that is read becomes in the compiled tree: [datetime]
    stays, every other name becomes the [item] of an attribute access. *)
Definition compiled_name (n : string * expr_context) : string * expr_context :=
  if String.eqb (fst n) "datetime" then n else ("item", Load).

(** The tree in which every bare name [n] other than [datetime] has become
    the attribute access [item.n], a read, and nothing else has changed. *)
Fixpoint reads_from_item (t : ast) : ast :=
  match t with
  | Atom v => Atom v
  | Name id ctx =>
      if String.eqb id "datetime" then Name id ctx
      else Attribute (Name "item" Load) id Load
  | Node cls fields => Node cls (map reads_from_item fields)
  | Seq items => Seq (map reads_from_item items)
  end.

(** A bare name the transformer accepts: it is read, and it is [datetime]
    or an attribute of the item type. *)
Definition accepted_name (ty : item_type) (n : string * expr_context) : Prop :=
  snd n = Load /\ (fst n = "datetime" \/ hasattr ty (fst n) = true).

Section Relations.

Context {W : Type}.

(** Whatever [m] does, the state it leaves is related by [R] to the state it
    started in. *)
Definition follows {A} (R : state W -> state W -> Prop) (m : M W A) : Prop :=
  forall s o s', m s = (o, s') -> R s s'.

(** The set of profiles has only grown. *)
Definition profiles_grow (s s' : state W) : Prop := profiles s ⊆ profiles s'.

(** The set of profiles is the same. *)
Definition profiles_kept (s s' : state W) : Prop := profiles s' = profiles s.

End Relations.

(** The account a call downloads through the loader itself, if it is such a
    call, and the accounts downloaded so in a trace, in order. *)
Definition loader_download (ev : event) : list string :=
  match ev with
  | EDownloadProfile TheLoader args => [pa_target args]
  | _ => []
  end.

Definition loader_downloads (tr : list event) : list string := flat_map loader_download tr.

(** The calls that load, check or open a session. *)
Definition is_session_call (ev : event) : bool :=
  match ev with
  | ELoadSession _ _ | ETestLogin | ELogin _ _ | EInteractiveLogin _ => true
  | _ => false
  end.

(** A login is made the way the arguments ask for: with the password that
    was given, and by prompting only when none was given. *)
Definition login_as_asked (a : main_args) (ev : event) : Prop :=
  match ev with
  | ELogin _ pw => password a = Some pw
  | EInteractiveLogin _ => password a = None
  | _ => True
  end.

(** The login call the arguments ask for. *)
Definition login_call (a : main_args) (user : string) : event :=
  match password a with
  | Some pw => ELogin user pw
  | None => EInteractiveLogin user
  end.

(** A download of an account through the loader itself that does not ask for
    stories. *)
Definition without_stories (ev : event) : Prop :=
  match ev with
  | EDownloadProfile TheLoader args => pa_stories args = Some false
  | _ => True
  end.

End RunVocabulary.

(* ===================================================================== *)
(** ** Sample inputs                                                       *)
(* ===================================================================== *)

Module Samples.

Import Filter Driver.

(** An item type with some of the attributes of [Post]. *)
Definition sample_Post : item_type :=
  {| type_name := "Post";
     hasattr := fun id =>
       existsb (String.eqb id)
         ["shortcode"; "owner_username"; "date_utc"; "caption"; "likes"; "comments";
          "is_video"; "viewer_has_liked"] |}.

Definition sample_StoryItem : item_type :=
  {| type_name := "StoryItem";
     hasattr := fun id => existsb (String.eqb id) ["owner_username"; "date_utc"; "is_video"] |}.

(** [viewer_has_liked] *)
Definition tree_viewer_has_liked : ast := Expression (Name "viewer_has_liked" Load).

(** [not_a_real_field] *)
Definition tree_not_a_real_field : ast := Expression (Name "not_a_real_field" Load).

(** [[1 for likes in bogus]]: a comprehension binds [likes] (context
    [Store]) and reads [bogus]; the fields of [comprehension] are [target],
    [iter], [ifs], [is_async], in this order. *)
Definition tree_bind_then_read : ast :=
  Expression (ListComp (Constant "1") [comprehension (Name "likes" Store) (Name "bogus" Load) []]).

(** [[bogus for likes in comments]]: the fields of [ListComp] are [elt],
    [generators], so the read of [bogus] comes first. *)
Definition tree_read_then_bind : ast :=
  Expression (ListComp (Name "bogus" Load)
                [comprehension (Name "likes" Store) (Name "comments" Load) []]).

(** [likes > 100 and date_utc < datetime(2018, 1, 1)] *)
Definition tree_likes_and_date : ast :=
  Expression
    (Node "BoolOp"
       [Node "And" [];
        Seq [Compare (Name "likes" Load) ["Gt"] [Constant "100"];
             Compare (Name "date_utc" Load) ["Lt"]
               [Node "Call" [Name "datetime" Load;
                             Seq [Constant "2018"; Constant "1"; Constant "1"];
                             Seq []]]]]).

(** [await likes]: the field of [Await] is [value]. *)
Definition tree_await_likes : ast := Expression (Node "Await" [Name "likes" Load]).

(** The text holds a NUL character. *)
Fixpoint has_nul (s : string) : bool :=
  match s with
  | EmptyString => false
  | String c s' => Ascii.eqb c (ascii_of_nat 0) || has_nul s'
  end.

(** What [ast.parse(_, mode='eval')] answers on the sample texts.  A text
    with a NUL character is a [ValueError]; [await likes] is an expression
    of the grammar; an assignment statement is not an expression, so it is
    a syntax error, as is every text that is not listed. *)
Definition sample_parse (src : string) : outcome ast :=
  if has_nul src then Raise (ValueError "source code string cannot contain null bytes")
  else if String.eqb src "viewer_has_liked" then Ret tree_viewer_has_liked
  else if String.eqb src "not_a_real_field" then Ret tree_not_a_real_field
  else if String.eqb src "[1 for likes in bogus]" then Ret tree_bind_then_read
  else if String.eqb src "[bogus for likes in comments]" then Ret tree_read_then_bind
  else if String.eqb src "likes > 100 and date_utc < datetime(2018, 1, 1)"
       then Ret tree_likes_and_date
  else if String.eqb src "is_video" then Ret (Expression (Name "is_video" Load))
  else if String.eqb src "await likes" then Ret tree_await_likes
  else Raise SyntaxError.

(** An [Await], [Yield] or [YieldFrom] node of the tree. *)
Fixpoint awaits_or_yields (t : ast) : bool :=
  match t with
  | Atom _ | Name _ _ => false
  | Node cls fields =>
      String.eqb cls "Await" || String.eqb cls "Yield" || String.eqb cls "YieldFrom"
      || existsb awaits_or_yields fields
  | Seq items => existsb awaits_or_yields items
  end.

(** What the built-in [compile(_, mode='eval')] answers on the sample trees:
    none of them has a function body, so an [await] or a [yield] is outside
    a function, which is a [SyntaxError]; every other sample tree compiles. *)
Definition sample_compile (t : ast) : outcome unit :=
  if awaits_or_yields t then Raise SyntaxError else Ret tt.

(** [str.lower] on ASCII text, which the sample login names are: [A]..[Z]
    go to [a]..[z]. *)
Definition ascii_lower_char (a : ascii) : ascii :=
  let n := nat_of_ascii a in
  if ((65 <=? n)%nat && (n <=? 90)%nat)%bool then ascii_of_nat (n + 32) else a.

Fixpoint ascii_lower (s : string) : string :=
  match s with
  | EmptyString => EmptyString
  | String a s' => String (ascii_lower_char a) (ascii_lower s')
  end.

(** A small world: the state of the session.  Logging in succeeds, no
    session file exists, the hashtag [limited] is rate limited, the user
    interrupts the download of the hashtag [stop], the profile
    [ghost] is not found by the logged-in loader, [profile.json] holds a
    [Profile] and every other descriptor file a [Post]. *)
Definition sample_call (ev : event) (logged_in : bool) : outcome unit * bool :=
  match ev with
  | ELoadSession _ _ => (Raise (FileNotFoundError "No such file or directory"), logged_in)
  | ELogin _ _ | EInteractiveLogin _ => (Ret tt, true)
  | EDownloadHashtag tag _ _ _ =>
      if String.eqb tag "limited"
      then (Raise (InstaloaderException "429 Too Many Requests"), logged_in)
      else if String.eqb tag "stop" then (Raise KeyboardInterrupt, logged_in)
      else (Ret tt, logged_in)
  | EDownloadProfile TheLoader args =>
      if String.eqb (pa_target args) "ghost"
      then (Raise (ProfileNotExistsException "Profile ghost does not exist."), logged_in)
      else (Ret tt, logged_in)
  | _ => (Ret tt, logged_in)
  end.

Definition sample_world : Externals bool :=
  {| x_isfile := fun _ _ => true;
     x_dirname := fun _ => "";
     x_argv0 := "instaloader";
     x_int := fun _ => Ret 10%Z;
     x_lower := ascii_lower;
     x_parse := sample_parse;
     x_compile := sample_compile;
     x_Post := sample_Post;
     x_StoryItem := sample_StoryItem;
     x_is_logged_in := fun logged_in => logged_in;
     x_call := sample_call;
     x_test_login := fun logged_in => (Ret None, logged_in);
     x_load_structure := fun path logged_in =>
       (Ret (if String.eqb path "profile.json" then ProfileS "alice" else PostS "<Post B1>"),
        logged_in);
     x_get_followees := fun _ logged_in => (Ret ["bob"; "carol"], logged_in);
     x_filter := fun _ _ logged_in => (Ret true, logged_in);
     x_set_order := elements;
     x_set_order_perm := fun _ => reflexivity _ |}.

Definition sample_main_args (targets : list string) (user : option string) : main_args :=
  {| targetlist := targets; username := user; password := Some "secret";
     sessionfile := None; max_count := None; profile_pic := true;
     profile_pic_only := false; fast_update := false; stories := true;
     stories_only := false; post_filter_str := None;
     storyitem_filter_str := Some "is_video" |}.

Definition sample_cli (targets : list string) (user : option string) : cli_args :=
  {| arg_profile := targets; arg_login := user; arg_password := Some "secret";
     arg_sessionfile := None; arg_count := None; arg_no_profile_pic := false;
     arg_profile_pic_only := false; arg_fast_update := false; arg_stories := false;
     arg_stories_only := false; arg_post_filter := None; arg_storyitem_filter := None;
     arg_no_captions := false; arg_post_metadata_txt := None;
     arg_storyitem_metadata_txt := None |}.

Definition no_filters : filters := {| post_filter := None; storyitem_filter := None |}.

End Samples.

(* ===================================================================== *)
(** ** More sample inputs                                                  *)
(* ===================================================================== *)

Module MoreSamples.

Import Filter Driver Samples.

(** A second world: the session of [me] is on file and valid, the hashtag
    [limited] is rate limited, the remote service hides [ghost] from
    everybody, the only files are [post.json], which holds a [Post], and
    [story.json], which holds a [StoryItem], the post filter rejects every
    [Post] and evaluating a filter on a [StoryItem] raises a [TypeError]. *)
Definition strict_call (ev : event) (logged_in : bool) : outcome unit * bool :=
  match ev with
  | ELoadSession _ _ => (Ret tt, true)
  | EDownloadHashtag tag _ _ _ =>
      if String.eqb tag "limited"
      then (Raise (InstaloaderException "429 Too Many Requests"), logged_in)
      else (Ret tt, logged_in)
  | EDownloadProfile TheLoader args =>
      if String.eqb (pa_target args) "ghost"
      then (Raise (ProfileNotExistsException "Profile ghost does not exist."), logged_in)
      else (Ret tt, logged_in)
  | EDownloadProfile AnonymousLoader args =>
      if String.eqb (pa_target args) "ghost"
      then (Raise (InstaloaderException "Login required."), logged_in)
      else (Ret tt, logged_in)
  | _ => (Ret tt, logged_in)
  end.

Definition strict_world : Externals bool :=
  {| x_isfile := fun path _ => String.eqb path "post.json" || String.eqb path "story.json";
     x_dirname := fun _ => "saved";
     x_argv0 := "__main__.py";
     x_int := fun _ => Ret 10%Z;
     x_lower := ascii_lower;
     x_parse := sample_parse;
     x_compile := sample_compile;
     x_Post := sample_Post;
     x_StoryItem := sample_StoryItem;
     x_is_logged_in := fun logged_in => logged_in;
     x_call := strict_call;
     x_test_login := fun logged_in => (Ret (Some "me"), logged_in);
     x_load_structure := fun path logged_in =>
       (Ret (if String.eqb path "story.json" then StoryItemS "<StoryItem 7>"
             else PostS "<Post B1>"),
        logged_in);
     x_get_followees := fun _ logged_in => (Ret ["bob"], logged_in);
     x_filter := fun _ item logged_in =>
       match item with
       | StoryItemS _ => (Raise (OtherError "TypeError: unorderable types"), logged_in)
       | _ => (Ret false, logged_in)
       end;
     x_set_order := elements;
     x_set_order_perm := fun _ => reflexivity _ |}.

(** The compiled filter [is_video]. *)
Definition code_is_video : ast := Expression (Attribute (Name "item" Load) "is_video" Load).

Definition both_filters : filters :=
  {| post_filter := Some code_is_video; storyitem_filter := Some code_is_video |}.

(** Arguments with a post filter that names no attribute of [Post]. *)
Definition args_with_bad_filter : main_args :=
  {| targetlist := ["alice"]; username := Some "me"; password := None;
     sessionfile := None; max_count := None; profile_pic := true;
     profile_pic_only := false; fast_update := false; stories := false;
     stories_only := false; post_filter_str := Some "not_a_real_field";
     storyitem_filter_str := None |}.


(** A command line that asks for stories without a login name. *)
Definition cli_stories_without_login (targets : list string) : cli_args :=
  {| arg_profile := targets; arg_login := None; arg_password := None;
     arg_sessionfile := None; arg_count := Some "10"; arg_no_profile_pic := false;
     arg_profile_pic_only := false; arg_fast_update := false; arg_stories := true;
     arg_stories_only := false; arg_post_filter := None;
     arg_storyitem_filter := None; arg_no_captions := false;
     arg_post_metadata_txt := None; arg_storyitem_metadata_txt := None |}.

End MoreSamples.

(* ===================================================================== *)
(** ** Facts about the string operations and the classification            *)
(* ===================================================================== *)

Module ClassifyFacts.

Lemma endswith_empty (suf : string) :
  suf <> "" -> PyStr.endswith "" suf = false.
Proof. destruct suf; [congruence | reflexivity]. Qed.

(** A string that ends with the separator does not end with [.json]. *)
Lemma separator_not_json (s : string) :
  PyStr.endswith s "/" = true -> PyStr.endswith s ".json" = false.
Proof.
  induction s as [|a s IH]; [discriminate|].
  intros H. cbn [PyStr.endswith] in *.
  apply orb_true_iff in H. apply orb_false_iff. split.
  - destruct (String.eqb_spec (String a s) ".json") as [E|]; [|reflexivity].
    injection E as -> ->. vm_compute in H. destruct H; discriminate.
  - destruct H as [H|H].
    + apply String.eqb_eq in H. injection H as _ ->. reflexivity.
    + auto.
Qed.

(** Nor with [.json.xz]. *)
Lemma separator_not_json_xz (s : string) :
  PyStr.endswith s "/" = true -> PyStr.endswith s ".json.xz" = false.
Proof.
  induction s as [|a s IH]; [discriminate|].
  intros H. cbn [PyStr.endswith] in *.
  apply orb_true_iff in H. apply orb_false_iff. split.
  - destruct (String.eqb_spec (String a s) ".json.xz") as [E|]; [|reflexivity].
    injection E as -> ->. vm_compute in H. destruct H; discriminate.
  - destruct H as [H|H].
    + apply String.eqb_eq in H. injection H as _ ->. reflexivity.
    + auto.
Qed.

Lemma separator_no_descriptor_suffix (s : string) :
  PyStr.endswith s "/" = true -> has_descriptor_suffix s = false.
Proof.
  intros H. unfold has_descriptor_suffix.
  rewrite separator_not_json, separator_not_json_xz by exact H. reflexivity.
Qed.

(** The sigil chain never selects the descriptor-file branch. *)
Lemma classify_sigil_not_file (s path : string) :
  classify_sigil s <> Ret (LocalDescriptorFile path).
Proof.
  unfold classify_sigil. destruct (PyStr.index0 s) as [c|e]; [|discriminate].
  repeat match goal with |- context [if ?b then _ else _] => destruct b end;
    discriminate.
Qed.

(** The classification is total on every string that is not empty once its
    trailing separators are removed. *)
Lemma classify_total (isfile : string -> bool) (target : string) :
  PyStr.rstrip "/" target <> "" -> exists t, classify isfile target = Ret t.
Proof.
  intros H. unfold classify.
  destruct (has_descriptor_suffix target && isfile target); [eauto|].
  unfold classify_sigil. destruct (PyStr.rstrip "/" target) as [|c r]; [congruence|].
  cbn [PyStr.index0].
  repeat match goal with |- context [if ?b then _ else _] => destruct b end; eauto.
Qed.

(** On a target made of path separators only, and on the empty target, the
    sigil chain reads [target[0]] of the empty string. *)
Lemma classify_raises_on_separators (isfile : string -> bool) :
  classify isfile "/" = Raise IndexError /\
  classify isfile "///" = Raise IndexError /\
  classify isfile "" = Raise IndexError.
Proof. repeat split; reflexivity. Qed.

Lemma trailing_separator_classify (isfile : string -> bool) (target : string) :
  PyStr.endswith target "/" = true ->
  classify isfile target = classify_sigil (PyStr.rstrip "/" target).
Proof.
  intros H. unfold classify. rewrite (separator_no_descriptor_suffix _ H). reflexivity.
Qed.

End ClassifyFacts.

(* ===================================================================== *)
(** ** Facts about the filter compiler                                     *)
(* ===================================================================== *)

Module FilterFacts.

Import Filter.

(** Induction on trees, with the hypothesis for every field or item. *)
Lemma ast_ind (P : ast -> Prop) :
  (forall v, P (Atom v)) ->
  (forall id ctx, P (Name id ctx)) ->
  (forall cls fields, Forall P fields -> P (Node cls fields)) ->
  (forall items, Forall P items -> P (Seq items)) ->
  forall t, P t.
Proof.
  intros HAtom HName HNode HSeq. fix IH 1. intros [v|id ctx|cls fields|items].
  - apply HAtom.
  - apply HName.
  - apply HNode. induction fields as [|x xs IHxs]; constructor; [apply IH | exact IHxs].
  - apply HSeq. induction items as [|x xs IHxs]; constructor; [apply IH | exact IHxs].
Qed.

Section Compiler.

Variable ty : item_type.

Lemma visit_Node (cls : string) (fields : list ast) :
  visit ty (Node cls fields) =
  match visit_all ty fields with
  | Raise e => Raise e
  | Ret fields' => Ret (Node cls fields')
  end.
Proof.
  cbn [visit].
  match goal with |- match ?f fields with _ => _ end = _ =>
    assert (E : forall l, f l = visit_all ty l)
  end.
  { induction l as [|x xs IH]; [reflexivity|]. cbn [visit_all]. rewrite <- IH. reflexivity. }
  rewrite E. reflexivity.
Qed.

Lemma visit_Seq (items : list ast) :
  visit ty (Seq items) =
  match visit_all ty items with
  | Raise e => Raise e
  | Ret items' => Ret (Seq items')
  end.
Proof.
  cbn [visit].
  match goal with |- match ?f items with _ => _ end = _ =>
    assert (E : forall l, f l = visit_all ty l)
  end.
  { induction l as [|x xs IH]; [reflexivity|]. cbn [visit_all]. rewrite <- IH. reflexivity. }
  rewrite E. reflexivity.
Qed.







End Compiler.

Import Samples.




(** The "modifying variables" message is never a "not an attribute" message
    of the sample item type. *)
Lemma modifying_likes_is_no_name_fault (id : string) :
  modifying_fault "likes" <> not_attribute_fault sample_Post id.
Proof.
  change (modifying_fault "likes") with
    (InvalidArgumentException "Invalid filter: Modifying variables (likes) not allowed.").
  unfold not_attribute_fault. intros H. injection H as H. cbn in H.
  repeat (destruct id as [|? id]; cbn in H; [discriminate H | injection H as _ H]).
  destruct id; discriminate H.
Qed.

(** When an expression has both kinds of offending name, the one met first
    decides: [[1 for likes in bogus]] reads the bare name [bogus], which is
    no attribute of the item type, yet compilation raises the "modifying
    variables" fault for [likes], met first, and no name fault. *)
Lemma name_fault_preempted_by_binding :
  sample_parse "[1 for likes in bogus]" = Ret tree_bind_then_read /\
  references_undeclared sample_Post tree_bind_then_read = true /\
  filterstr_to_filterfunc sample_parse sample_compile "[1 for likes in bogus]" sample_Post
    = Raise (modifying_fault "likes") /\
  forall id, filterstr_to_filterfunc sample_parse sample_compile "[1 for likes in bogus]"
               sample_Post
             <> Raise (not_attribute_fault sample_Post id).
Proof.
  split; [reflexivity|]. split; [reflexivity|].
  assert (E : filterstr_to_filterfunc sample_parse sample_compile "[1 for likes in bogus]"
                sample_Post
              = Raise (modifying_fault "likes")) by reflexivity.
  split; [exact E|]. intros id. rewrite E. intros H.
  apply (modifying_likes_is_no_name_fault id). congruence.
Qed.

(** The other order: [[bogus for likes in comments]] binds [likes], yet the
    read of [bogus] is met first and the name fault is raised. *)
Lemma binding_preempted_by_name_fault :
  modifies_a_name tree_read_then_bind = true /\
  filterstr_to_filterfunc sample_parse sample_compile "[bogus for likes in comments]"
    sample_Post
    = Raise (not_attribute_fault sample_Post "bogus").
Proof. split; reflexivity. Qed.

(** A text with a NUL character: the [ValueError] of [ast.parse] is what
    compilation raises. *)
Example parse_fault_is_passed_on :
  filterstr_to_filterfunc sample_parse sample_compile
    (String (ascii_of_nat 0) "likes") sample_Post
  = Raise (ValueError "source code string cannot contain null bytes").
Proof. reflexivity. Qed.

(** The whitelisted [datetime] stays a bare name and attributes become
    loads from [item]. *)
Example compile_likes_and_date :
  exists code,
    filterstr_to_filterfunc sample_parse sample_compile
      "likes > 100 and date_utc < datetime(2018, 1, 1)" sample_Post = Ret code /\
    names code = [("item", Load); ("item", Load); ("datetime", Load)].
Proof. eexists. split; reflexivity. Qed.

End FilterFacts.

(* ===================================================================== *)
(** ** Facts about the run                                                 *)
(* ===================================================================== *)

Module DriverFacts.

Import Filter Driver Observations.

Section Facts.

Context {W : Type}.
Variable X : Externals W.

(** *** The calls a piece of the driver can make *)

Lemma emits_quiet {A} (P : event -> Prop) (m : M W A) :
  (forall s o s', m s = (o, s') -> trace s' = trace s) -> emits P m.
Proof.
  intros H s o s' E. exists []. rewrite app_nil_r. split; [eauto|constructor].
Qed.

Lemma emits_ret {A} P (a : A) : emits P (ret (W:=W) a).
Proof. apply emits_quiet. intros s o s' [= _ <-]. reflexivity. Qed.

Lemma emits_raise {A} P (e : exn) : emits P (raise (W:=W) (A:=A) e).
Proof. apply emits_quiet. intros s o s' [= _ <-]. reflexivity. Qed.

Lemma emits_lift {A} P (r : outcome A) : emits P (lift (W:=W) r).
Proof. apply emits_quiet. intros s o s' [= _ <-]. reflexivity. Qed.

Lemma emits_context_log P msg : emits P (context_log (W:=W) msg).
Proof. apply emits_quiet. intros s o s' [= _ <-]. reflexivity. Qed.

Lemma emits_print_stderr P msg : emits P (print_stderr (W:=W) msg).
Proof. apply emits_quiet. intros s o s' [= _ <-]. reflexivity. Qed.

Lemma emits_is_logged_in P : emits P (is_logged_in X).
Proof. apply emits_quiet. intros s o s' [= _ <-]. reflexivity. Qed.

Lemma emits_isfile P path : emits P (isfile X path).
Proof. apply emits_quiet. intros s o s' [= _ <-]. reflexivity. Qed.

Lemma emits_add_profiles P names : emits P (add_profiles (W:=W) names).
Proof. apply emits_quiet. intros s o s' [= _ <-]. reflexivity. Qed.

Lemma emits_perform {A} (P : event -> Prop) ev (f : W -> outcome A * W) :
  P ev -> emits P (perform ev f).
Proof.
  intros HP s o s'. unfold perform. destruct (f (world s)) as [o1 w1].
  intros [= _ <-]. exists [ev]. split; [reflexivity|]. repeat constructor; exact HP.
Qed.

Lemma emits_call (P : event -> Prop) ev : P ev -> emits P (call X ev).
Proof. apply emits_perform. Qed.

Lemma emits_construct (P : event -> Prop) ev : P ev -> emits P (construct (W:=W) ev).
Proof.
  intros HP s o s' [= _ <-]. exists [ev]. split; [reflexivity|].
  repeat constructor; exact HP.
Qed.

Lemma emits_bind {A B} P (m : M W A) (k : A -> M W B) :
  emits P m -> (forall a, emits P (k a)) -> emits P (bind m k).
Proof.
  intros Hm Hk s o s'. unfold bind. destruct (m s) as [[a|e] s1] eqn:E.
  - intros E2. destruct (Hm _ _ _ E) as (evs1 & T1 & F1).
    destruct (Hk _ _ _ _ E2) as (evs2 & T2 & F2).
    exists (evs1 ++ evs2). rewrite T2, T1, app_assoc. split; [reflexivity|].
    apply Forall_app; auto.
  - intros [= _ <-]. eapply Hm; eauto.
Qed.

Lemma emits_catch {A} P (m : M W A) (h : exn -> M W A) :
  emits P m -> (forall e, emits P (h e)) -> emits P (catch m h).
Proof.
  intros Hm Hh s o s'. unfold catch. destruct (m s) as [[a|e] s1] eqn:E.
  - intros [= _ <-]. eapply Hm; eauto.
  - intros E2. destruct (Hm _ _ _ E) as (evs1 & T1 & F1).
    destruct (Hh _ _ _ _ E2) as (evs2 & T2 & F2).
    exists (evs1 ++ evs2). rewrite T2, T1, app_assoc. split; [reflexivity|].
    apply Forall_app; auto.
Qed.

Lemma emits_error_catcher P info (body : M W unit) :
  emits P body -> emits P (error_catcher info body).
Proof.
  intros Hb s o s'. unfold error_catcher. destruct (body s) as [[a|e] s1] eqn:E.
  - intros [= _ <-]. eapply Hb; eauto.
  - destruct (is_InstaloaderException e); intros [= _ <-];
      destruct (Hb _ _ _ E) as (evs & T & F); exists evs; auto.
Qed.

Lemma emits_for_each {A} P (body : A -> M W unit) (l : list A) :
  (forall x, emits P (body x)) -> emits P (for_each body l).
Proof.
  intros Hb. induction l as [|x xs IH]; cbn [for_each].
  - apply emits_ret.
  - apply emits_bind; auto.
Qed.

Lemma emits_state_dependent {A} P (f : state W -> M W A) :
  (forall s0, emits P (f s0)) -> emits P (fun s => f s s).
Proof. intros H s o s' E. exact (H s s o s' E). Qed.

Lemma emits_set_profiles P p :
  emits P (fun s : state W => (Ret tt, set_profiles p s)).
Proof. apply emits_quiet. intros s o s' [= _ <-]. reflexivity. Qed.

End Facts.

(** Goes through a piece of the driver, statement by statement; the calls
    met on the way are left as goals. *)
Ltac emits_step :=
  match goal with
  | |- emits _ (bind _ _) => apply emits_bind; [|intros ?]
  | |- emits _ (catch _ _) => apply emits_catch; [|intros ?]
  | |- emits _ (error_catcher _ _) => apply emits_error_catcher
  | |- emits _ (for_each _ _) => apply emits_for_each; intros ?
  | |- emits _ (ret _) => apply emits_ret
  | |- emits _ (raise _) => apply emits_raise
  | |- emits _ (lift _) => apply emits_lift
  | |- emits _ (context_log _) => apply emits_context_log
  | |- emits _ (print_stderr _) => apply emits_print_stderr
  | |- emits _ (is_logged_in _) => apply emits_is_logged_in
  | |- emits _ (isfile _ _) => apply emits_isfile
  | |- emits _ (add_profiles _) => apply emits_add_profiles
  | |- emits _ (perform _ _) => apply emits_perform
  | |- emits _ (call _ _) => apply emits_call
  | |- emits _ (construct _) => apply emits_construct
  | |- emits _ (fun s => (Ret tt, set_profiles _ s)) => apply emits_set_profiles
  | |- emits _ (match ?x with _ => _ end) => destruct x eqn:?
  | |- emits _ (if ?b then _ else _) => destruct b eqn:?
  end.

Ltac emits_auto := repeat emits_step.

Section Alphabet.

Context {W : Type}.
Variable X : Externals W.
Variable a : main_args.

Lemma emits_weaken {A} (P Q : event -> Prop) (m : M W A) :
  (forall ev, P ev -> Q ev) -> emits P m -> emits Q m.
Proof.
  intros PQ H s o s' E. destruct (H _ _ _ E) as (evs & T & F).
  exists evs. split; [exact T|]. eapply Forall_impl; eauto.
Qed.

Lemma emits_compile_filters P : emits P (compile_filters X a).
Proof. unfold compile_filters, make_filter. emits_auto. Qed.

Lemma emits_login_phase : emits (login_event a) (login_phase X a).
Proof. unfold login_phase. emits_auto; subst; constructor; assumption. Qed.

Lemma emits_target_step fs target : emits (loop_event a) (target_step X a fs target).
Proof.
  unfold target_step, target_body, file_target, sigil_target, rejected_by.
  emits_auto; constructor.
Qed.

Lemma emits_profile_step fs target : emits (loop_event a) (profile_step X a fs target).
Proof.
  unfold profile_step, profile_body, anonymous_retry.
  emits_auto; constructor.
Qed.

Lemma emits_loops fs : emits (loop_event a) (loops X a fs).
Proof.
  unfold loops. apply emits_bind.
  - apply emits_for_each. intros t. apply emits_target_step.
  - intros _.
    apply (emits_state_dependent (loop_event a)
             (fun s0 => bind (if (1 <? size (profiles s0))%nat
                              then context_log _ else ret tt)
                             (fun _ => for_each (profile_step X a fs)
                                         (x_set_order X (profiles s0))))).
    intros s0. apply emits_bind; [emits_auto|]. intros _.
    apply emits_for_each. intros t. apply emits_profile_step.
Qed.

Lemma emits_shutdown :
  emits (fun ev => ev = ESaveSession (sessionfile a)) (shutdown X a).
Proof. unfold shutdown. emits_auto; reflexivity. Qed.

Lemma emits_after_login fs : emits (main_event a) (after_login X a fs).
Proof.
  unfold after_login, main_event. emits_auto.
  - eapply emits_weaken; [|apply emits_loops]. tauto.
  - unfold on_interrupt. emits_auto.
  - eapply emits_weaken; [|apply emits_shutdown]. tauto.
Qed.

Lemma emits__main : emits (main_event a) (_main X a).
Proof.
  unfold _main. emits_auto.
  - apply emits_compile_filters.
  - eapply emits_weaken; [|apply emits_login_phase]. unfold main_event. tauto.
  - apply emits_after_login.
Qed.

End Alphabet.

(* ------------------------------------------------------------------- *)
(** *** The target loop and the classification *)

Section Targets.

Context {W : Type}.
Variable X : Externals W.
Variables (a : main_args) (fs : filters).

Lemma target_step_unfold (target : string) (s : state W) :
  target_step X a fs target s =
  error_catcher (Some (target_key target (is_descriptor_file X target s)))
                (target_body X a fs target (is_descriptor_file X target s)) s.
Proof.
  unfold target_step, is_descriptor_file, bind, isfile, ret.
  destruct (has_descriptor_suffix target); reflexivity.
Qed.

(** [classify] selects the branch a turn of the target loop takes. *)
Lemma target_step_by_classify (target : string) (s : state W) :
  target_step X a fs target s =
  match classify (fun path => x_isfile X path (world s)) target with
  | Ret (LocalDescriptorFile path) =>
      error_catcher (Some path) (file_target X fs path) s
  | _ =>
      error_catcher (Some (PyStr.rstrip "/" target))
                    (sigil_target X a fs (PyStr.rstrip "/" target)) s
  end.
Proof.
  rewrite target_step_unfold. unfold classify, is_descriptor_file, target_key, target_body.
  destruct (has_descriptor_suffix target && x_isfile X target (world s)); [reflexivity|].
  pose proof (ClassifyFacts.classify_sigil_not_file (PyStr.rstrip "/" target)) as N.
  destruct (classify_sigil (PyStr.rstrip "/" target)) as [[]|]; try reflexivity.
  exfalso. eapply N. reflexivity.
Qed.

(** C5: the classification is a function of the string and of the file
    test, but it is not total: on a target made of path separators only
    the sigil chain reads [target[0]] of the empty string and raises
    [IndexError], whatever the file system holds; the boundary does not
    catch it and the target loop stops there, before the targets that
    follow. *)
Theorem separator_only_target_raises (rest : list string) (s : state W) :
  classify (fun path => x_isfile X path (world s)) "/" = Raise IndexError /\
  classify (fun path => x_isfile X path (world s)) "" = Raise IndexError /\
  for_each (target_step X a fs) ("/" :: rest) s = (Raise IndexError, s) /\
  for_each (target_step X a fs) ("" :: rest) s = (Raise IndexError, s).
Proof. repeat split; reflexivity. Qed.

(** C8: a raw target that ends with a path separator never takes the
    descriptor-file branch, whatever the file test answers (so also when
    the stripped string has a descriptor suffix and names a file); it is
    classified by the sigil chain on the stripped string, and the turn of
    the loop runs the sigil branch on the stripped string. *)
Theorem trailing_separator_skips_file_branch (target : string) (s : state W) :
  PyStr.endswith target "/" = true ->
  let isfile := fun path => x_isfile X path (world s) in
  classify isfile target = classify_sigil (PyStr.rstrip "/" target) /\
  (forall path, classify isfile target <> Ret (LocalDescriptorFile path)) /\
  target_step X a fs target s =
    error_catcher (Some (PyStr.rstrip "/" target))
                  (sigil_target X a fs (PyStr.rstrip "/" target)) s.
Proof.
  intros H isfile.
  pose proof (ClassifyFacts.trailing_separator_classify isfile target H) as E.
  split; [exact E|]. split.
  - intros path. rewrite E. apply ClassifyFacts.classify_sigil_not_file.
  - rewrite target_step_unfold. unfold is_descriptor_file.
    rewrite (ClassifyFacts.separator_no_descriptor_suffix _ H). reflexivity.
Qed.

End Targets.

(* ------------------------------------------------------------------- *)
(** *** The failure boundary *)

Section Boundary.

Context {W : Type}.
Variable X : Externals W.
Variables (a : main_args) (fs : filters).

Lemma error_catcher_caught info (body : M W unit) s s' e :
  body s = (Raise e, s') -> is_InstaloaderException e = true ->
  error_catcher info body s = (Ret tt, record_error (info, e) s').
Proof. intros E H. unfold error_catcher. rewrite E, H. reflexivity. Qed.

Lemma error_catcher_ok info (body : M W unit) s s' :
  body s = (Ret tt, s') -> error_catcher info body s = (Ret tt, s').
Proof. intros E. unfold error_catcher. rewrite E. reflexivity. Qed.

Lemma no_escape_error_catcher info (body : M W unit) :
  no_escape (error_catcher info body).
Proof.
  intros s e s'. unfold error_catcher. destruct (body s) as [[[]|e0] s0]; [discriminate|].
  destruct (is_InstaloaderException e0) eqn:E; [discriminate|].
  intros [= <- _]. exact E.
Qed.

Lemma no_escape_bind {A B} (m : M W A) (k : A -> M W B) :
  no_escape m -> (forall x, no_escape (k x)) -> no_escape (bind m k).
Proof.
  intros Hm Hk s e s'. unfold bind. destruct (m s) as [[x|e0] s0] eqn:E.
  - apply Hk.
  - intros [= <- _]. eapply Hm; eauto.
Qed.

Lemma no_escape_for_each {A} (body : A -> M W unit) (l : list A) :
  (forall x, no_escape (body x)) -> no_escape (for_each body l).
Proof.
  intros Hb. induction l as [|x xs IH]; cbn [for_each].
  - intros s e s'. discriminate.
  - apply no_escape_bind; auto.
Qed.

Lemma no_escape_target_step target : no_escape (target_step X a fs target).
Proof.
  intros s e s'. rewrite target_step_unfold. apply no_escape_error_catcher.
Qed.

Lemma no_escape_loops : no_escape (loops X a fs).
Proof.
  unfold loops. apply no_escape_bind.
  - apply no_escape_for_each, no_escape_target_step.
  - intros _.
    assert (H : forall s0 : state W, no_escape
              (bind (if (1 <? size (profiles s0))%nat
                     then context_log
                            ("Downloading " +:+ pretty (size (profiles s0)) +:+ " profiles: "
                             +:+ PyStr.join " " (x_set_order X (profiles s0)))
                     else ret tt)
                    (fun _ => for_each (profile_step X a fs)
                                (x_set_order X (profiles s0))))).
    { intros s0. apply no_escape_bind.
      - destruct (1 <? size (profiles s0))%nat; intros s e s'; discriminate.
      - intros _. apply no_escape_for_each. intros t. apply no_escape_error_catcher. }
    intros s e s'. apply (H s).
Qed.

Lemma for_each_app {A} (body : A -> M W unit) (l1 l2 : list A) s s1 :
  for_each body l1 s = (Ret tt, s1) ->
  for_each body (l1 ++ l2) s = for_each body l2 s1.
Proof.
  revert s. induction l1 as [|x xs IH]; intros s; cbn [for_each app].
  - intros [= <-]. reflexivity.
  - unfold bind. destruct (body x s) as [[[]|e] s0]; [apply IH|discriminate].
Qed.

Lemma keeps_errors_bind {A B} (m : M W A) (k : A -> M W B) :
  keeps_errors m -> (forall x, keeps_errors (k x)) -> keeps_errors (bind m k).
Proof.
  intros Hm Hk s o s'. unfold bind. destruct (m s) as [[x|e] s0] eqn:E.
  - intros E2. rewrite (Hk _ _ _ _ E2). eapply Hm; eauto.
  - intros [= _ <-]. eapply Hm; eauto.
Qed.

Lemma keeps_errors_perform {A} ev (f : W -> outcome A * W) : keeps_errors (perform ev f).
Proof.
  intros s o s'. unfold perform. destruct (f (world s)). intros [= _ <-]. reflexivity.
Qed.

Lemma keeps_errors_pure {A} (r : outcome A) (f : state W -> state W) :
  (forall s, error_log (f s) = error_log s) -> keeps_errors (fun s => (r, f s)).
Proof. intros H s o s' [= _ <-]. apply H. Qed.

(** The body of the boundary of a target makes no record of its own. *)
Lemma keeps_errors_target_body target is_file :
  keeps_errors (target_body X a fs target is_file).
Proof.
  unfold target_body, file_target, sigil_target, rejected_by.
  repeat match goal with
         | |- keeps_errors (bind _ _) => apply keeps_errors_bind; [|intros ?]
         | |- keeps_errors (perform _ _) => apply keeps_errors_perform
         | |- keeps_errors (call _ _) => apply keeps_errors_perform
         | |- keeps_errors (ret _) => apply (keeps_errors_pure _ (fun s => s)); reflexivity
         | |- keeps_errors (raise _) => apply (keeps_errors_pure _ (fun s => s)); reflexivity
         | |- keeps_errors (lift _) => apply (keeps_errors_pure _ (fun s => s)); reflexivity
         | |- keeps_errors (context_log ?m) =>
             apply (keeps_errors_pure _ (add_log m)); reflexivity
         | |- keeps_errors (add_profiles ?l) =>
             apply (keeps_errors_pure _ (fun s => set_profiles (profiles s ∪ list_to_set l) s));
             reflexivity
         | |- keeps_errors (match ?x with _ => _ end) => destruct x
         | |- keeps_errors (if ?b then _ else _) => destruct b
         end.
Qed.

(** The target loop runs a batch as the specification describes it: every
    target is processed and exactly the records of the failed ones are added
    to the error log. *)
Lemma target_loop_runs_batch ts s errs s' :
  target_batch X a fs ts s errs s' ->
  for_each (target_step X a fs) ts s = (Ret tt, s') /\
  error_log s' = error_log s ++ errs.
Proof.
  induction 1 as [s|t ts s s1 errs s2 Hbody _ [IHrun IHlog]
                   |t ts s s1 e errs s2 Hbody He _ [IHrun IHlog]].
  - split; [reflexivity|]. rewrite app_nil_r. reflexivity.
  - cbn [for_each]. unfold bind at 1.
    rewrite target_step_unfold, (error_catcher_ok _ _ _ _ Hbody).
    split; [exact IHrun|]. rewrite IHlog.
    rewrite (keeps_errors_target_body _ _ _ _ _ Hbody). reflexivity.
  - cbn [for_each]. unfold bind at 1.
    rewrite target_step_unfold, (error_catcher_caught _ _ _ _ _ Hbody He).
    split; [exact IHrun|]. rewrite IHlog. cbn [error_log record_error].
    rewrite (keeps_errors_target_body _ _ _ _ _ Hbody), <- app_assoc. reflexivity.
Qed.

(** What the body of the boundary of an account records itself: nothing,
    unless the first attempt raised the not-found fault in a logged-in
    session and the retry raised a per-target fault; then the body returns
    and the boundary of the retry has recorded the cause of the retry,
    without the account. *)
Lemma profile_body_records (t : string) (s : state W) (o : outcome unit) (s1 : state W) :
  profile_body X a fs t s = (o, s1) ->
  error_log s1 = error_log s \/
  exists msg w1 e,
    x_call X (EDownloadProfile TheLoader (authenticated_args a fs t)) (world s)
      = (Raise (ProfileNotExistsException msg), w1) /\
    x_is_logged_in X w1 = true /\
    fst (x_call X (EDownloadProfile AnonymousLoader (anonymous_args a fs t)) w1) = Raise e /\
    is_InstaloaderException e = true /\
    o = Ret tt /\
    error_log s1 = error_log s ++ [(None, e)].
Proof.
  unfold profile_body, catch, call, perform.
  destruct (x_call X (EDownloadProfile TheLoader (authenticated_args a fs t)) (world s))
    as [[[]|e] w1] eqn:E1.
  - intros [= <- <-]. left. reflexivity.
  - destruct e; try (intros [= <- <-]; left; reflexivity).
    unfold bind, is_logged_in. cbn [world set_world add_event].
    destruct (x_is_logged_in X w1) eqn:Hlog; [|intros [= <- <-]; left; reflexivity].
    unfold context_log, anonymous_retry, construct, error_catcher, call, perform, bind.
    cbn [world set_world add_event add_log].
    destruct (x_call X (EDownloadProfile AnonymousLoader (anonymous_args a fs t)) w1)
      as [[[]|e2] w2] eqn:E2.
    + intros [= <- <-]. left. reflexivity.
    + destruct (is_InstaloaderException e2) eqn:He2; intros [= <- <-].
      * right. exists msg, w1, e2. rewrite E2. repeat split; auto.
      * left. reflexivity.
Qed.

(** The profile loop runs a batch of accounts as described: every account
    is processed and exactly the records of the batch are added to the
    error log. *)
Lemma profile_loop_runs_batch ts s errs s' :
  profile_batch X a fs ts s errs s' ->
  for_each (profile_step X a fs) ts s = (Ret tt, s') /\
  error_log s' = error_log s ++ errs.
Proof.
  induction 1 as [s|t ts s s1 errs s2 Hbody Hlog _ [IHrun IHlog]
                   |t ts s s1 e errs s2 Hbody He _ [IHrun IHlog]
                   |t ts s s1 e errs s2 Hbody Hlog _ [IHrun IHlog]].
  - split; [reflexivity|]. rewrite app_nil_r. reflexivity.
  - cbn [for_each]. unfold bind at 1, profile_step at 1.
    rewrite (error_catcher_ok _ _ _ _ Hbody).
    split; [exact IHrun|]. rewrite IHlog, Hlog. reflexivity.
  - cbn [for_each]. unfold bind at 1, profile_step at 1.
    rewrite (error_catcher_caught _ _ _ _ _ Hbody He).
    split; [exact IHrun|]. rewrite IHlog. cbn [error_log record_error].
    destruct (profile_body_records _ _ _ _ Hbody) as [Hk|(? & ? & ? & _ & _ & _ & _ & Ho & _)];
      [|discriminate Ho].
    rewrite Hk, <- app_assoc. reflexivity.
  - cbn [for_each]. unfold bind at 1, profile_step at 1.
    rewrite (error_catcher_ok _ _ _ _ Hbody).
    split; [exact IHrun|]. rewrite IHlog, Hlog, <- app_assoc. reflexivity.
Qed.

(** The two loops run a batch of targets and then the batch of the accounts
    these have named. *)
Lemma loops_run_batches s errs1 s1 errs2 s2 :
  target_batch X a fs (targetlist a) s errs1 s1 ->
  profile_batch X a fs (x_set_order X (profiles s1)) (announced X s1) errs2 s2 ->
  loops X a fs s = (Ret tt, s2) /\
  error_log s2 = error_log s ++ errs1 ++ errs2.
Proof.
  intros H1 H2.
  destruct (target_loop_runs_batch _ _ _ _ H1) as [R1 L1].
  destruct (profile_loop_runs_batch _ _ _ _ H2) as [R2 L2].
  unfold loops, bind at 1. rewrite R1. unfold bind at 1.
  assert (E : (if (1 <? size (profiles s1))%nat
               then context_log
                      ("Downloading " +:+ pretty (size (profiles s1)) +:+ " profiles: "
                       +:+ PyStr.join " " (x_set_order X (profiles s1)))
               else ret tt) s1 = (Ret tt, announced X s1)).
  { unfold announced. destruct (1 <? size (profiles s1))%nat; reflexivity. }
  rewrite E. split; [exact R2|].
  rewrite L2, app_assoc. f_equal. rewrite <- L1.
  unfold announced. destruct (1 <? size (profiles s1))%nat; reflexivity.
Qed.

(** C2, as the code has it: a per-target fault raised while one target is
    resolved or downloaded is caught by the boundary of that target and
    recorded with the target and the cause, and the loop goes on with the
    targets that follow, in the target loop and in the profile loop alike;
    a turn whose body returns is not touched by its boundary, and the body
    records nothing itself, except that the body of an account whose
    anonymous retry raised a per-target fault returns with the one record
    the boundary of the retry has made: the cause of the retry, without the
    account; no per-target fault ever ends the loops; and when every target
    and then every account they have named either succeeds or raises a
    per-target fault, the two loops process all of them, to the end, and add
    exactly the records of the failed ones to the error log, in order. *)
Theorem per_target_fault_is_isolated :
  (forall pre t post s s1 s2 e,
     for_each (target_step X a fs) pre s = (Ret tt, s1) ->
     target_body X a fs t (is_descriptor_file X t s1) s1 = (Raise e, s2) ->
     is_InstaloaderException e = true ->
     for_each (target_step X a fs) (pre ++ t :: post) s =
     for_each (target_step X a fs) post
       (record_error (Some (target_key t (is_descriptor_file X t s1)), e) s2)) /\
  (forall pre t post s s1 s2 e,
     for_each (profile_step X a fs) pre s = (Ret tt, s1) ->
     profile_body X a fs t s1 = (Raise e, s2) ->
     is_InstaloaderException e = true ->
     for_each (profile_step X a fs) (pre ++ t :: post) s =
     for_each (profile_step X a fs) post (record_error (Some t, e) s2) /\
     error_log s2 = error_log s1) /\
  (forall t s s2,
     target_body X a fs t (is_descriptor_file X t s) s = (Ret tt, s2) ->
     target_step X a fs t s = (Ret tt, s2) /\ error_log s2 = error_log s) /\
  (forall t s s2,
     profile_body X a fs t s = (Ret tt, s2) ->
     profile_step X a fs t s = (Ret tt, s2) /\
     (error_log s2 = error_log s \/
      exists msg w1 e,
        x_call X (EDownloadProfile TheLoader (authenticated_args a fs t)) (world s)
          = (Raise (ProfileNotExistsException msg), w1) /\
        x_is_logged_in X w1 = true /\
        fst (x_call X (EDownloadProfile AnonymousLoader (anonymous_args a fs t)) w1)
          = Raise e /\
        is_InstaloaderException e = true /\
        error_log s2 = error_log s ++ [(None, e)])) /\
  (forall s e s',
     loops X a fs s = (Raise e, s') -> is_InstaloaderException e = false) /\
  (forall s errs1 s1 errs2 s2,
     target_batch X a fs (targetlist a) s errs1 s1 ->
     profile_batch X a fs (x_set_order X (profiles s1)) (announced X s1) errs2 s2 ->
     loops X a fs s = (Ret tt, s2) /\
     error_log s2 = error_log s ++ errs1 ++ errs2).
Proof.
  split; [|split; [|split; [|split; [|split]]]].
  - intros pre t post s s1 s2 e Hpre Hbody He.
    rewrite (for_each_app _ _ _ _ _ Hpre). cbn [for_each]. unfold bind at 1.
    rewrite target_step_unfold, (error_catcher_caught _ _ _ _ _ Hbody He). reflexivity.
  - intros pre t post s s1 s2 e Hpre Hbody He. split.
    + rewrite (for_each_app _ _ _ _ _ Hpre). cbn [for_each]. unfold bind at 1.
      unfold profile_step at 1. rewrite (error_catcher_caught _ _ _ _ _ Hbody He).
      reflexivity.
    + destruct (profile_body_records _ _ _ _ Hbody)
        as [Hk|(? & ? & ? & _ & _ & _ & _ & Ho & _)]; [exact Hk|discriminate Ho].
  - intros t s s2 Hbody. split.
    + rewrite target_step_unfold. apply error_catcher_ok, Hbody.
    + apply (keeps_errors_target_body _ _ _ _ _ Hbody).
  - intros t s s2 Hbody. split; [apply error_catcher_ok, Hbody|].
    destruct (profile_body_records _ _ _ _ Hbody)
      as [Hk|(msg & w1 & e & H1 & H2 & H3 & H4 & _ & H5)]; [left; exact Hk|].
    right. exists msg, w1, e. auto.
  - apply no_escape_loops.
  - apply loops_run_batches.
Qed.

End Boundary.

(* ------------------------------------------------------------------- *)
(** *** The anonymous retry *)

Section Retry.

Context {W : Type}.
Variable X : Externals W.
Variables (a : main_args) (fs : filters).

(** C3: when the download of an account raises the not-found fault and
    the session is authenticated, exactly one retry is made, for the same
    account and with the same picture, update and post-filter arguments, on
    an anonymous copy constructed for it just before; when the session is
    not authenticated no retry is made, the fault leaves the body as it
    was raised and the boundary of the account records it. *)
Theorem not_found_retry (target msg : string) (w1 : W) (s : state W) :
  x_call X (EDownloadProfile TheLoader (authenticated_args a fs target)) (world s)
    = (Raise (ProfileNotExistsException msg), w1) ->
  let s1 := after_first_attempt a fs target w1 s in
  if x_is_logged_in X w1
  then exists o s',
         profile_body X a fs target s = (o, s') /\
         trace s' = trace s ++
           [EDownloadProfile TheLoader
              {| pa_target := target; pa_profile_pic := profile_pic a;
                 pa_profile_pic_only := profile_pic_only a;
                 pa_fast_update := fast_update a;
                 pa_stories := Some (stories a); pa_stories_only := Some (stories_only a);
                 pa_post_filter := post_filter fs;
                 pa_storyitem_filter := Some (storyitem_filter fs) |};
            EAnonymousCopy;
            EDownloadProfile AnonymousLoader
              {| pa_target := target; pa_profile_pic := profile_pic a;
                 pa_profile_pic_only := profile_pic_only a;
                 pa_fast_update := fast_update a;
                 pa_stories := None; pa_stories_only := None;
                 pa_post_filter := post_filter fs;
                 pa_storyitem_filter := None |}] /\
         count_retries (trace s') = count_retries (trace s) + 1
  else profile_body X a fs target s = (Raise (ProfileNotExistsException msg), s1) /\
       profile_step X a fs target s
         = (Ret tt, record_error (Some target, ProfileNotExistsException msg) s1) /\
       trace s1 = trace s ++ [EDownloadProfile TheLoader (authenticated_args a fs target)] /\
       count_retries (trace s1) = count_retries (trace s).
Proof.
  intros Hcall s1.
  assert (Hfirst : call X (EDownloadProfile TheLoader (authenticated_args a fs target)) s
                   = (Raise (ProfileNotExistsException msg), s1)).
  { unfold call, perform. rewrite Hcall. reflexivity. }
  destruct (x_is_logged_in X w1) eqn:Hlog.
  - unfold profile_body, catch. rewrite Hfirst. subst s1.
    unfold bind, is_logged_in, context_log, anonymous_retry, construct,
      error_catcher, call, perform, bind, after_first_attempt.
    cbn [world add_log add_event set_world]. rewrite Hlog.
    cbn [world add_log add_event set_world].
    destruct (x_call X (EDownloadProfile AnonymousLoader (anonymous_args a fs target)) w1)
      as [[[]|e] w2]; [|destruct (is_InstaloaderException e)];
      (eexists _, _; split; [reflexivity|];
       cbn [trace set_world add_event add_log record_error];
       rewrite <- !app_assoc; split; [reflexivity|];
       unfold count_retries; rewrite !List.filter_app, !length_app; cbn; lia).
  - assert (Hbody : profile_body X a fs target s
                    = (Raise (ProfileNotExistsException msg), s1)).
    { unfold profile_body, catch. rewrite Hfirst. subst s1.
      unfold bind, is_logged_in, after_first_attempt. cbn [world set_world].
      rewrite Hlog. reflexivity. }
    split; [exact Hbody|]. split.
    + unfold profile_step. apply (error_catcher_caught _ _ _ _ _ Hbody). reflexivity.
    + split; [reflexivity|]. subst s1. unfold count_retries, after_first_attempt.
      cbn [trace set_world add_event].
      rewrite List.filter_app, length_app. cbn. lia.
Qed.

End Retry.

(* ------------------------------------------------------------------- *)
(** *** Saving the session *)

Section Session.

Context {W : Type}.
Variable X : Externals W.
Variable a : main_args.

Lemma count_saves_app (tr1 tr2 : list event) :
  count_saves (tr1 ++ tr2) = count_saves tr1 + count_saves tr2.
Proof. unfold count_saves. rewrite List.filter_app, length_app. reflexivity. Qed.

Lemma count_saves_none (P : event -> Prop) (evs : list event) :
  (forall ev, P ev -> is_save ev = false) -> Forall P evs -> count_saves evs = 0.
Proof.
  intros HP. induction 1 as [|ev evs Hev _ IH]; [reflexivity|].
  unfold count_saves in *. cbn [List.filter]. rewrite (HP _ Hev). exact IH.
Qed.

Lemma emits_no_save {A} (P : event -> Prop) (m : M W A) s o s' :
  (forall ev, P ev -> is_save ev = false) -> emits P m ->
  m s = (o, s') -> count_saves (trace s') = count_saves (trace s).
Proof.
  intros HP Hm E. destruct (Hm _ _ _ E) as (evs & -> & F).
  rewrite count_saves_app, (count_saves_none P evs HP F). lia.
Qed.

Lemma login_event_no_save ev : login_event a ev -> is_save ev = false.
Proof. destruct 1; reflexivity. Qed.

Lemma loop_event_no_save ev : loop_event a ev -> is_save ev = false.
Proof. destruct 1; reflexivity. Qed.

(** Lines 161-170 save the session once if it is logged in, and not at
    all otherwise. *)
Lemma shutdown_saves (s : state W) :
  count_saves (trace (snd (shutdown X a s)))
  = count_saves (trace s) + (if x_is_logged_in X (world s) then 1 else 0).
Proof.
  unfold shutdown, bind, is_logged_in. cbn [world].
  destruct (x_is_logged_in X (world s)) eqn:E.
  - unfold call, perform.
    destruct (x_call X (ESaveSession (sessionfile a)) (world s)) as [[[]|e] w1].
    + destruct (targetlist a).
      * cbn [world set_world]. destruct (x_is_logged_in X w1);
          cbn -[count_saves]; rewrite count_saves_app; reflexivity.
      * cbn -[count_saves]. rewrite count_saves_app. reflexivity.
    + cbn -[count_saves]. rewrite count_saves_app. reflexivity.
  - unfold ret. destruct (targetlist a); cbn -[count_saves];
      [rewrite E; cbn -[count_saves]|]; lia.
Qed.

(** C4: in a run that reaches the loops and leaves them normally or by an
    interrupt, [save_session_to_file] is called exactly once when the
    session is logged in at that point and not at all when it is not. *)
Theorem session_saved_once (fs : filters) (o : outcome unit) (s s0 s1 s2 : state W) :
  compile_filters X a s = (Ret fs, s0) ->
  login_phase X a s0 = (Ret tt, s1) ->
  loops X a fs (set_profiles ∅ s1) = (o, s2) ->
  o = Ret tt \/ o = Raise KeyboardInterrupt ->
  count_saves (trace (snd (_main X a s)))
  = count_saves (trace s) + (if x_is_logged_in X (world s2) then 1 else 0).
Proof.
  intros Hc Hl Hloops Ho.
  assert (T0 : count_saves (trace s0) = count_saves (trace s)).
  { eapply (emits_no_save (fun _ => False)); [tauto | apply emits_compile_filters | exact Hc]. }
  assert (T1 : count_saves (trace s1) = count_saves (trace s0)).
  { eapply emits_no_save; [apply login_event_no_save | apply emits_login_phase | exact Hl]. }
  assert (T2 : count_saves (trace s2) = count_saves (trace s1)).
  { apply (emits_no_save _ _ _ _ _ loop_event_no_save (emits_loops X a fs) Hloops). }
  unfold _main, bind. rewrite Hc, Hl. unfold after_login, bind, catch. rewrite Hloops.
  destruct Ho as [-> | ->].
  - rewrite shutdown_saves. lia.
  - cbn [on_interrupt]. unfold print_stderr. rewrite shutdown_saves.
    cbn [trace world add_stderr]. lia.
Qed.

End Session.

(* ------------------------------------------------------------------- *)
(** *** The arguments of the retry and the login name *)

Section Calls.

Context {W : Type}.
Variable X : Externals W.

Lemma main_event_retry a ev : main_event a ev -> retry_without_stories ev.
Proof.
  intros [H|[H| ->]]; [destruct H| destruct H|]; cbn; auto.
Qed.

(** C9: every download that a run makes through the anonymous copy leaves
    out the stories arguments and the storyitem filter, whatever the
    values of [stories], [stories_only] and the storyitem filter of the
    run, which the first attempt does pass. *)
Theorem anonymous_retry_omits_stories (a : main_args) (s : state W) :
  (exists evs, trace (snd (_main X a s)) = trace s ++ evs /\
               Forall retry_without_stories evs) /\
  (forall fs target,
     pa_stories (authenticated_args a fs target) = Some (stories a) /\
     pa_stories_only (authenticated_args a fs target) = Some (stories_only a) /\
     pa_storyitem_filter (authenticated_args a fs target) = Some (storyitem_filter fs)).
Proof.
  split; [|repeat split].
  destruct (_main X a s) as [o s'] eqn:E.
  destruct (emits__main X a _ _ _ E) as (evs & T & F).
  exists evs. split; [exact T|].
  eapply Forall_impl; [exact F|]. apply main_event_retry.
Qed.

Lemma emits_main (args : cli_args) : emits (cli_event X args) (main X args).
Proof.
  unfold main, main_body, check_stories, check_removed_targets, check_captions, fatal,
    cli_event.
  emits_auto; auto.
  eapply emits_weaken; [|apply emits__main]. cbn beta. eauto.
Qed.

Lemma cli_event_user args name ev :
  arg_login args = Some name -> cli_event X args ev ->
  session_user_is (x_lower X name) ev.
Proof.
  intros L [->|[->|(st & c & [H|[H| ->]])]]; cbn; auto.
  - destruct H as [u Hu| |u pw Hu|u Hu]; cbn; auto;
      cbn in Hu; rewrite L in Hu; cbn in Hu; congruence.
  - destruct H; exact I.
Qed.

(** C10: with a login name given, every call that loads the session or
    logs in is made for [str.lower] of the name, and a run whose login name
    has the same lowercased form, so differs in letter case only, is the
    same run. *)
Theorem login_name_is_lowercased (args : cli_args) (name : string) (s : state W) :
  arg_login args = Some name ->
  (exists evs, trace (snd (main X args s)) = trace s ++ evs /\
               Forall (session_user_is (x_lower X name)) evs) /\
  (forall name', x_lower X name' = x_lower X name ->
                 main X (set_login args name') s = main X args s).
Proof.
  intros L. split.
  - destruct (main X args s) as [o s'] eqn:E.
    destruct (emits_main args _ _ _ E) as (evs & T & F).
    exists evs. split; [exact T|].
    eapply Forall_impl; [exact F|]. intros ev. apply cli_event_user, L.
  - intros name' Hl.
    unfold main, main_body, check_stories, check_removed_targets, check_captions,
      main_args_of.
    cbn [set_login arg_login arg_profile arg_password arg_sessionfile arg_count
         arg_no_profile_pic arg_profile_pic_only arg_fast_update arg_stories
         arg_stories_only arg_post_filter arg_storyitem_filter arg_no_captions
         arg_post_metadata_txt arg_storyitem_metadata_txt option_map].
    rewrite L. cbn [option_map]. rewrite Hl. reflexivity.
Qed.

End Calls.

(* ------------------------------------------------------------------- *)
(** *** Descriptor files that are rejected, and runs without targets *)

Section Rejections.

Context {W : Type}.
Variable X : Externals W.
Variables (a : main_args) (fs : filters).

(** C6, as the code has it: the rejection of a descriptor file that holds
    a [Profile] or an unsupported class is raised inside the boundary of
    that target; the boundary records it for the target, the turn ends
    normally and the loop goes on with the targets that follow. *)
Theorem unsupported_descriptor_is_recorded
    (target : string) (rest : list string) (st : structure) (w1 : W) (s : state W) :
  has_descriptor_suffix target = true ->
  x_isfile X target (world s) = true ->
  x_load_structure X target (world s) = (Ret st, w1) ->
  unsupported st = true ->
  exists msg,
    let s1 := record_error (Some target, InvalidArgumentException msg)
                (set_world w1 (add_event (ELoadStructure target) s)) in
    target_step X a fs target s = (Ret tt, s1) /\
    for_each (target_step X a fs) (target :: rest) s
      = for_each (target_step X a fs) rest s1.
Proof.
  intros Hsuf Hfile Hload Hst.
  assert (Hbody : exists msg,
             target_body X a fs target true s
             = (Raise (InvalidArgumentException msg),
                set_world w1 (add_event (ELoadStructure target) s))).
  { unfold target_body, file_target, bind, perform. rewrite Hload.
    destruct st; try discriminate; eexists; reflexivity. }
  destruct Hbody as [msg Hbody]. exists msg. cbv zeta.
  assert (Hstep : target_step X a fs target s
                  = (Ret tt, record_error (Some target, InvalidArgumentException msg)
                               (set_world w1 (add_event (ELoadStructure target) s)))).
  { rewrite target_step_unfold. unfold is_descriptor_file. rewrite Hsuf, Hfile.
    cbn [andb target_key]. apply (error_catcher_caught _ _ _ _ _ Hbody). reflexivity. }
  split; [exact Hstep|]. cbn [for_each]. unfold bind at 1. rewrite Hstep. reflexivity.
Qed.

Lemma loops_without_targets (s : state W) :
  targetlist a = [] ->
  loops X a fs (set_profiles ∅ s) = (Ret tt, set_profiles ∅ s).
Proof.
  intros H. unfold loops. rewrite H. cbn [for_each]. unfold bind, ret.
  cbn [profiles set_profiles].
  assert (E : x_set_order X ∅ = []).
  { apply Permutation_nil_r. rewrite (x_set_order_perm X ∅), elements_empty. reflexivity. }
  rewrite E, size_empty. reflexivity.
Qed.

(** C7, as the code has it: a run without targets that ends normally logs
    exactly one message after the login.  When the session is logged in,
    [save_session_to_file] is called first, the only call made, and the
    message is logged in the state that call has left: the notice that no
    targets were specified if the session is still logged in, the usage
    text if it is not.  When the session is not logged in no call is made
    and the usage text is logged. *)
Theorem empty_target_list_message (s s' : state W) :
  targetlist a = [] ->
  after_login X a fs s = (Ret tt, s') ->
  if x_is_logged_in X (world s)
  then exists saved,
         call X (ESaveSession (sessionfile a)) (set_profiles ∅ s) = (Ret tt, saved) /\
         trace saved = trace s ++ [ESaveSession (sessionfile a)] /\
         log saved = log s /\
         s' = add_log (if x_is_logged_in X (world saved)
                       then no_targets_message
                       else "usage:" +:+ usage_string X) saved
  else s' = add_log ("usage:" +:+ usage_string X) (set_profiles ∅ s) /\
       trace s' = trace s /\
       log s' = log s ++ ["usage:" +:+ usage_string X].
Proof.
  intros H. unfold after_login, bind, catch. rewrite (loops_without_targets s H).
  unfold shutdown, bind, is_logged_in. rewrite H. cbn [world set_profiles].
  destruct (x_is_logged_in X (world s)) eqn:E.
  - unfold call, perform. cbn [world set_profiles].
    destruct (x_call X (ESaveSession (sessionfile a)) (world s)) as [[[]|e] w1];
      [|discriminate].
    cbn [world set_world]. unfold context_log.
    destruct (x_is_logged_in X w1) eqn:E1;
      intros [= <-]; eexists; (split; [reflexivity|]);
      cbn [log trace world add_log set_world add_event set_profiles];
      rewrite E1; auto.
  - unfold ret, context_log. cbn [world set_profiles]. rewrite E.
    intros [= <-]. cbn [log trace world add_log set_profiles]. auto.
Qed.

End Rejections.

Import Samples MoreSamples.

Lemma unsupported_descriptor_is_recorded_witness :
  exists msg,
    target_step sample_world (sample_main_args [] None) no_filters "profile.json"
      (initial_state false)
    = (Ret tt, record_error (Some "profile.json", InvalidArgumentException msg)
                 (set_world false (add_event (ELoadStructure "profile.json")
                                     (initial_state false)))).
Proof.
  destruct (unsupported_descriptor_is_recorded sample_world (sample_main_args [] None)
              no_filters "profile.json" [] (ProfileS "alice") false (initial_state false)
              eq_refl eq_refl eq_refl eq_refl) as [msg [H _]].
  exists msg. exact H.
Defined.

(** C6, as stated, fails: a run whose only target is a descriptor file that
    holds a [Profile] returns normally, so its exit status is 0; the
    rejection is in the error log of the boundary. *)
Lemma profile_descriptor_run_exits_zero :
  let r := main sample_world (sample_cli ["profile.json"] None) (initial_state false) in
  x_load_structure sample_world "profile.json" false = (Ret (ProfileS "alice"), false) /\
  fst r = Ret tt /\
  exit_status (fst r) = 0 /\
  error_log (snd r)
  = [(Some "profile.json",
      InvalidArgumentException
        ("Profile JSON are ignored. Pass " +:+ dq +:+ "alice" +:+ dq
         +:+ " to download that profile"))].
Proof. cbv zeta. repeat split; vm_compute; reflexivity. Qed.

Lemma empty_target_list_message_witness :
  (exists s',
     after_login sample_world (sample_main_args [] None) no_filters (initial_state true)
     = (Ret tt, s') /\
     trace s' = [ESaveSession None] /\ log s' = [no_targets_message]) /\
  (exists s',
     after_login sample_world (sample_main_args [] None) no_filters (initial_state false)
     = (Ret tt, s') /\
     trace s' = [] /\ log s' = ["usage:" +:+ usage_string sample_world]).
Proof.
  split.
  - destruct (after_login sample_world (sample_main_args [] None) no_filters
                (initial_state true)) as [o s'] eqn:E.
    assert (Ho : o = Ret tt) by (vm_compute in E; congruence). subst o.
    destruct (empty_target_list_message sample_world (sample_main_args [] None) no_filters
                (initial_state true) s' eq_refl E) as (saved & Hs & T & L & ->).
    eexists. split; [reflexivity|]. injection Hs as <-. split; reflexivity.
  - destruct (after_login sample_world (sample_main_args [] None) no_filters
                (initial_state false)) as [o s'] eqn:E.
    assert (Ho : o = Ret tt) by (vm_compute in E; congruence). subst o.
    destruct (empty_target_list_message sample_world (sample_main_args [] None) no_filters
                (initial_state false) s' eq_refl E) as (-> & T & L).
    eexists. split; [reflexivity|]. split; reflexivity.
Defined.

(** C7, as stated, fails: a run without targets and without a login is not
    silent, it logs the usage text, which has several lines. *)
Lemma unauthenticated_empty_run_logs_usage :
  let r := main sample_world (sample_cli [] None) (initial_state false) in
  fst r = Ret tt /\
  x_is_logged_in sample_world (world (snd r)) = false /\
  log (snd r) = ["usage:" +:+ usage_string sample_world] /\
  log (snd r) <> [] /\
  usage_string sample_world
  = nl +:+ "instaloader [--comments] [--geotags] [--stories]" +:+ nl +:+
    "            [--login YOUR-USERNAME] [--fast-update]" +:+ nl +:+
    "            profile | " +:+ dq +:+ "#hashtag" +:+ dq +:+ " | :stories | :feed | :saved"
    +:+ nl +:+ "instaloader --help".
Proof.
  cbv zeta. repeat split; try (vm_compute; reflexivity).
  vm_compute. discriminate.
Qed.

Lemma login_name_is_lowercased_witness :
  trace (snd (main sample_world (sample_cli [] (Some "Alice")) (initial_state false)))
  = [ENewLoader; ELoadSession "alice" None; ELogin "alice" "secret"; ESaveSession None; EClose]
  /\ main sample_world (set_login (sample_cli [] (Some "Alice")) "aLICE") (initial_state false)
     = main sample_world (sample_cli [] (Some "Alice")) (initial_state false).
Proof.
  split; [reflexivity|].
  apply (proj2 (login_name_is_lowercased sample_world (sample_cli [] (Some "Alice")) "Alice"
                  (initial_state false) eq_refl)).
  reflexivity.
Defined.

(** The first attempt on [ghost] asks for stories and passes the storyitem
    filter; the retry passes neither. *)
Example retry_of_a_stories_run :
  exists sf,
    trace (snd (_main sample_world (sample_main_args ["ghost"] (Some "me")) (initial_state false)))
    = [ELoadSession "me" None; ELogin "me" "secret";
       EDownloadProfile TheLoader
         {| pa_target := "ghost"; pa_profile_pic := true; pa_profile_pic_only := false;
            pa_fast_update := false; pa_stories := Some true; pa_stories_only := Some false;
            pa_post_filter := None; pa_storyitem_filter := Some (Some sf) |};
       EAnonymousCopy;
       EDownloadProfile AnonymousLoader
         {| pa_target := "ghost"; pa_profile_pic := true; pa_profile_pic_only := false;
            pa_fast_update := false; pa_stories := None; pa_stories_only := None;
            pa_post_filter := None; pa_storyitem_filter := None |};
       ESaveSession None].
Proof. eexists. vm_compute. reflexivity. Qed.

Lemma session_saved_once_witness :
  count_saves (trace (snd (_main sample_world (sample_main_args ["#travel"; "alice"] (Some "me"))
                             (initial_state false)))) = 1 /\
  count_saves (trace (snd (_main sample_world (sample_main_args ["#stop"; "alice"] (Some "me"))
                             (initial_state false)))) = 1 /\
  count_saves (trace (snd (_main sample_world (sample_main_args ["#travel"; "alice"] None)
                             (initial_state false)))) = 0.
Proof.
  split; [|split].
  - etransitivity.
    + eapply (session_saved_once sample_world (sample_main_args ["#travel"; "alice"] (Some "me"))).
      * vm_compute. reflexivity.
      * vm_compute. reflexivity.
      * vm_compute. reflexivity.
      * left. reflexivity.
    + reflexivity.
  - etransitivity.
    + eapply (session_saved_once sample_world (sample_main_args ["#stop"; "alice"] (Some "me"))).
      * vm_compute. reflexivity.
      * vm_compute. reflexivity.
      * vm_compute. reflexivity.
      * right. reflexivity.
    + reflexivity.
  - etransitivity.
    + eapply (session_saved_once sample_world (sample_main_args ["#travel"; "alice"] None)).
      * vm_compute. reflexivity.
      * vm_compute. reflexivity.
      * vm_compute. reflexivity.
      * left. reflexivity.
    + reflexivity.
Defined.

Lemma not_found_retry_witness :
  (exists o s',
     profile_body sample_world (sample_main_args ["ghost"] (Some "me")) no_filters "ghost"
       (initial_state true) = (o, s') /\
     List.filter is_retry (trace s')
     = [EDownloadProfile AnonymousLoader
          {| pa_target := "ghost"; pa_profile_pic := true; pa_profile_pic_only := false;
             pa_fast_update := false; pa_stories := None; pa_stories_only := None;
             pa_post_filter := None; pa_storyitem_filter := None |}] /\
     count_retries (trace s') = 1) /\
  profile_step sample_world (sample_main_args ["ghost"] None) no_filters "ghost"
    (initial_state false)
  = (Ret tt,
     record_error (Some "ghost", ProfileNotExistsException "Profile ghost does not exist.")
       (after_first_attempt (sample_main_args ["ghost"] None) no_filters "ghost" false
          (initial_state false))).
Proof.
  split.
  - destruct (not_found_retry sample_world (sample_main_args ["ghost"] (Some "me"))
                no_filters "ghost" "Profile ghost does not exist." true
                (initial_state true) eq_refl)
      as (o & s' & E & T & C).
    exists o, s'. split; [exact E|]. split; [|exact C].
    rewrite T. reflexivity.
  - exact (proj1 (proj2 (not_found_retry sample_world (sample_main_args ["ghost"] None)
                           no_filters "ghost" "Profile ghost does not exist." false
                           (initial_state false) eq_refl))).
Defined.

Lemma per_target_fault_is_isolated_witness :
  exists s',
    loops strict_world (sample_main_args ["#ok"; "#limited"; "ghost/"; "alice"] (Some "me"))
      no_filters (initial_state true) = (Ret tt, s') /\
    error_log s' = [(Some "#limited", InstaloaderException "429 Too Many Requests");
                    (None, InstaloaderException "Login required.")] /\
    trace s'
    = [EDownloadHashtag "ok" None false None;
       EDownloadHashtag "limited" None false None;
       EDownloadProfile TheLoader
         {| pa_target := "ghost"; pa_profile_pic := true; pa_profile_pic_only := false;
            pa_fast_update := false; pa_stories := Some true; pa_stories_only := Some false;
            pa_post_filter := None; pa_storyitem_filter := Some None |};
       EAnonymousCopy;
       EDownloadProfile AnonymousLoader
         {| pa_target := "ghost"; pa_profile_pic := true; pa_profile_pic_only := false;
            pa_fast_update := false; pa_stories := None; pa_stories_only := None;
            pa_post_filter := None; pa_storyitem_filter := None |};
       EDownloadProfile TheLoader
         {| pa_target := "alice"; pa_profile_pic := true; pa_profile_pic_only := false;
            pa_fast_update := false; pa_stories := Some true; pa_stories_only := Some false;
            pa_post_filter := None; pa_storyitem_filter := Some None |}].
Proof.
  pose proof (per_target_fault_is_isolated strict_world
                (sample_main_args ["#ok"; "#limited"; "ghost/"; "alice"] (Some "me"))
                no_filters) as (_ & _ & _ & _ & _ & Hbatch).
  edestruct (Hbatch (initial_state true)) as [R L].
  - cbn [targetlist sample_main_args].
    eapply batch_processed; [vm_compute; reflexivity|].
    eapply batch_failed; [vm_compute; reflexivity|reflexivity|].
    eapply batch_processed; [vm_compute; reflexivity|].
    eapply batch_processed; [vm_compute; reflexivity|].
    apply batch_done.
  - match goal with
    | |- profile_batch _ _ _ ?l ?s _ _ =>
        let l' := eval vm_compute in l in
        let s' := eval vm_compute in s in
        replace l with l' by (vm_compute; reflexivity);
        replace s with s' by (vm_compute; reflexivity)
    end.
    repeat first
      [ apply accounts_done
      | eapply account_downloaded; [vm_compute; reflexivity|vm_compute; reflexivity|]
      | eapply account_retry_failed; [vm_compute; reflexivity|vm_compute; reflexivity|]
      | eapply account_failed; [vm_compute; reflexivity|reflexivity|] ].
  - eexists. split; [exact R|]. split; [rewrite L; vm_compute; reflexivity|].
    vm_compute. reflexivity.
Defined.

(** C2, as stated, fails: in a logged-in session the download of [ghost]
    raises the not-found fault and the anonymous retry raises a per-target
    fault too.  The loops go on and end normally, but the one record made
    for this failed account names no target: it is the record of the
    boundary of the retry, which is entered without the account. *)
Lemma failed_retry_is_recorded_without_target :
  let r := loops strict_world (sample_main_args ["ghost"] (Some "me")) no_filters
             (initial_state true) in
  fst r = Ret tt /\
  trace (snd r)
  = [EDownloadProfile TheLoader
       {| pa_target := "ghost"; pa_profile_pic := true; pa_profile_pic_only := false;
          pa_fast_update := false; pa_stories := Some true; pa_stories_only := Some false;
          pa_post_filter := None; pa_storyitem_filter := Some None |};
     EAnonymousCopy;
     EDownloadProfile AnonymousLoader
       {| pa_target := "ghost"; pa_profile_pic := true; pa_profile_pic_only := false;
          pa_fast_update := false; pa_stories := None; pa_stories_only := None;
          pa_post_filter := None; pa_storyitem_filter := None |}] /\
  error_log (snd r) = [(None, InstaloaderException "Login required.")] /\
  (forall cause, ~ In (Some "ghost", cause) (error_log (snd r))).
Proof.
  cbv zeta. split; [vm_compute; reflexivity|]. split; [vm_compute; reflexivity|].
  assert (E : error_log (snd (loops strict_world (sample_main_args ["ghost"] (Some "me"))
                                no_filters (initial_state true)))
              = [(None, InstaloaderException "Login required.")])
    by (vm_compute; reflexivity).
  split; [exact E|]. intros cause. rewrite E. intros [H|[]]. discriminate H.
Qed.

Lemma trailing_separator_skips_file_branch_witness :
  PyStr.endswith "saved.json/" "/" = true /\
  has_descriptor_suffix "saved.json" = true /\
  x_isfile sample_world "saved.json" false = true /\
  classify (fun path => x_isfile sample_world path false) "saved.json/"
    = Ret (AccountName "saved.json").
Proof.
  split; [reflexivity|]. split; [reflexivity|]. split; [reflexivity|].
  exact (proj1 (trailing_separator_skips_file_branch sample_world
                  (sample_main_args [] None) no_filters "saved.json/"
                  (initial_state false) eq_refl)).
Defined.

End DriverFacts.


(* ===================================================================== *)
(** ** More facts about the strings and the filter compiler                *)
(* ===================================================================== *)

Module MoreFilterFacts.

Import Filter RunVocabulary FilterFacts.

Section Output.

Variable ty : item_type.

Lemma visit_Name_output id ctx t' :
  visit_Name ty id ctx = Ret t' ->
  t' = reads_from_item (Name id ctx) /\ accepted_name ty (id, ctx).
Proof.
  unfold visit_Name, accepted_name. cbn [fst snd reads_from_item].
  destruct ctx; cbn [is_Load negb]; try discriminate.
  destruct (String.eqb_spec id "datetime") as [->|Hd]; [intros [= <-]; auto|].
  destruct (hasattr ty id); cbn [negb]; [|discriminate].
  intros [= <-]. auto.
Qed.

Lemma visit_all_output (l l' : list ast) :
  Forall (fun t => forall t', visit ty t = Ret t' ->
                     t' = reads_from_item t /\ Forall (accepted_name ty) (names t)) l ->
  visit_all ty l = Ret l' ->
  l' = map reads_from_item l /\ Forall (accepted_name ty) (flat_map names l).
Proof.
  intros H. revert l'. induction H as [|x xs Hx _ IH]; intros l'; cbn [visit_all].
  - intros [= <-]. split; [reflexivity|constructor].
  - destruct (visit ty x) as [x'|] eqn:Ex; [|discriminate].
    destruct (visit_all ty xs) as [xs'|] eqn:Exs; [|discriminate].
    intros [= <-]. destruct (Hx _ eq_refl) as [-> Fx]. destruct (IH _ eq_refl) as [-> Fxs].
    split; [reflexivity|]. cbn [flat_map]. apply Forall_app. auto.
Qed.

(** What the transformer returns is the tree with its names rewritten, and
    it returns only when it accepts every name. *)
Lemma visit_output (t t' : ast) :
  visit ty t = Ret t' ->
  t' = reads_from_item t /\ Forall (accepted_name ty) (names t).
Proof.
  revert t'. induction t as [v|id ctx|cls fields IH|items IH] using ast_ind; intros t'.
  - intros [= <-]. split; [reflexivity|constructor].
  - intros E. destruct (visit_Name_output _ _ _ E) as [-> Ha].
    split; [reflexivity|]. cbn [names]. constructor; [exact Ha|constructor].
  - rewrite visit_Node. destruct (visit_all ty fields) as [fs'|] eqn:E; [|discriminate].
    intros [= <-]. destruct (visit_all_output _ _ IH E) as [-> F]. auto.
  - rewrite visit_Seq. destruct (visit_all ty items) as [fs'|] eqn:E; [|discriminate].
    intros [= <-]. destruct (visit_all_output _ _ IH E) as [-> F]. auto.
Qed.

Lemma reads_from_item_names (t : ast) :
  names (reads_from_item t) = map compiled_name (names t).
Proof.
  induction t as [v|id ctx|cls fields IH|items IH] using ast_ind; cbn [reads_from_item names].
  - reflexivity.
  - unfold compiled_name. cbn [fst map]. destruct (String.eqb id "datetime"); reflexivity.
  - induction IH as [|x xs Hx _ IHxs]; [reflexivity|].
    cbn [map flat_map]. rewrite map_app, Hx, IHxs. reflexivity.
  - induction IH as [|x xs Hx _ IHxs]; [reflexivity|].
    cbn [map flat_map]. rewrite map_app, Hx, IHxs. reflexivity.
Qed.





End Output.

(** X1: the code object of a filter that compiles is compiled from the parsed
    tree with every bare name [n] other than [datetime] replaced by the
    attribute access [item.n] and nothing else changed.  So the only bare
    names left are [item] and [datetime], all of them read, and every bare
    name of the text was read and was [datetime] or an attribute of the item
    type. *)
Theorem compiled_filter_names
    (parse : string -> outcome ast) (compile : ast -> outcome unit)
    (src : string) (ty : item_type) (tree code : ast) :
  parse src = Ret tree ->
  filterstr_to_filterfunc parse compile src ty = Ret code ->
  code = reads_from_item tree /\
  compile code = Ret tt /\
  Forall (accepted_name ty) (names tree) /\
  names code = map compiled_name (names tree) /\
  Forall (fun n => n = ("item", Load) \/ n = ("datetime", Load)) (names code).
Proof.
  unfold filterstr_to_filterfunc. intros ->.
  destruct (visit ty tree) as [tree'|] eqn:Hv; [|discriminate].
  destruct (compile tree') as [[]|] eqn:Hc; [|discriminate].
  intros [= <-]. destruct (visit_output ty _ _ Hv) as [-> F].
  split; [reflexivity|]. split; [exact Hc|]. split; [exact F|].
  rewrite reads_from_item_names. split; [reflexivity|].
  apply Forall_forall. intros n Hn. apply list_elem_of_In, in_map_iff in Hn.
  destruct Hn as ([id ctx] & <- & Hin).
  rewrite Forall_forall in F. apply list_elem_of_In in Hin.
  destruct (F _ Hin) as [Hl _]. cbn [snd] in Hl. subst ctx.
  unfold compiled_name. cbn [fst].
  destruct (String.eqb_spec id "datetime") as [->|]; auto.
Qed.

Import Samples.

Lemma compiled_filter_names_witness :
  filterstr_to_filterfunc sample_parse sample_compile
    "likes > 100 and date_utc < datetime(2018, 1, 1)" sample_Post
  = Ret (Expression
           (Node "BoolOp"
              [Node "And" [];
               Seq [Compare (Attribute (Name "item" Load) "likes" Load) ["Gt"]
                      [Constant "100"];
                    Compare (Attribute (Name "item" Load) "date_utc" Load) ["Lt"]
                      [Node "Call" [Name "datetime" Load;
                                    Seq [Constant "2018"; Constant "1"; Constant "1"];
                                    Seq []]]]])).
Proof.
  destruct (filterstr_to_filterfunc sample_parse sample_compile
              "likes > 100 and date_utc < datetime(2018, 1, 1)" sample_Post)
    as [code|e] eqn:E; [|discriminate E].
  destruct (compiled_filter_names sample_parse sample_compile
              "likes > 100 and date_utc < datetime(2018, 1, 1)" sample_Post
              tree_likes_and_date code eq_refl E) as (-> & _).
  reflexivity.
Defined.

End MoreFilterFacts.

Module MoreClassifyFacts.

Lemma append_cons (a : ascii) (t u : string) : String a t +:+ u = String a (t +:+ u).
Proof. reflexivity. Qed.

Lemma append_separators (t : string) : t +:+ "//" = (t +:+ "/") +:+ "/".
Proof.
  induction t as [|a t IH]; [reflexivity|].
  rewrite !append_cons, IH. reflexivity.
Qed.

Lemma rstrip_app_separator (t : string) :
  PyStr.rstrip "/" (t +:+ "/") = PyStr.rstrip "/" t.
Proof.
  induction t as [|a t IH]; [reflexivity|].
  rewrite append_cons. cbn [PyStr.rstrip]. rewrite IH. reflexivity.
Qed.

Lemma endswith_app_separator (t : string) : PyStr.endswith (t +:+ "/") "/" = true.
Proof.
  induction t as [|a t IH]; [reflexivity|].
  rewrite append_cons. cbn [PyStr.endswith]. rewrite IH. apply orb_true_r.
Qed.

(** X2: a trailing path separator makes no difference to a target that is
    not taken as a descriptor file: [alice/] is classified as [alice] is, and
    so is [alice//]. *)
Theorem separator_suffix_is_ignored (isfile : string -> bool) (target : string) :
  has_descriptor_suffix target && isfile target = false ->
  classify isfile (target +:+ "/") = classify isfile target /\
  classify isfile (target +:+ "//") = classify isfile target.
Proof.
  intros H.
  assert (E : forall t, classify isfile (t +:+ "/") = classify_sigil (PyStr.rstrip "/" t)).
  { intros t. rewrite (ClassifyFacts.trailing_separator_classify _ _ (endswith_app_separator t)).
    rewrite rstrip_app_separator. reflexivity. }
  assert (E0 : classify isfile target = classify_sigil (PyStr.rstrip "/" target)).
  { unfold classify. rewrite H. reflexivity. }
  split.
  - rewrite E, E0. reflexivity.
  - rewrite append_separators, E, rstrip_app_separator, E0. reflexivity.
Qed.

Lemma separator_suffix_is_ignored_witness :
  classify (fun _ => false) "alice/" = Ret (AccountName "alice") /\
  classify (fun _ => false) "#travel//" = Ret (Tag "travel").
Proof.
  split.
  - exact (proj1 (separator_suffix_is_ignored (fun _ => false) "alice" eq_refl)).
  - exact (proj2 (separator_suffix_is_ignored (fun _ => false) "#travel" eq_refl)).
Defined.

End MoreClassifyFacts.


(* ===================================================================== *)
(** ** More facts about the run                                            *)
(* ===================================================================== *)

Module MoreDriverFacts.

Import Filter Driver Observations RunVocabulary DriverFacts.

(** Reads the fields of the states built along a run. *)
Ltac reduce_state :=
  cbn [world trace log stderr error_log profiles set_world add_event add_log add_stderr
       record_error set_profiles negb andb orb].

Section Logins.

Context {W : Type}.
Variable X : Externals W.
Variable a : main_args.

Lemma main_event_not_login ev :
  loop_event a ev \/ ev = ESaveSession (sessionfile a) -> login_as_asked a ev.
Proof. intros [H| ->]; [destruct H|]; exact I. Qed.

Lemma emits_login_as_asked : emits (login_as_asked a) (login_phase X a).
Proof. unfold login_phase. emits_auto; cbn; auto. Qed.

(** X3: the password decides how a login is made: with a password given the
    run never prompts, and every password login uses the given password;
    without one it never makes a password login. *)
Theorem login_is_made_as_asked (s : state W) :
  exists evs, trace (snd (_main X a s)) = trace s ++ evs /\
              Forall (login_as_asked a) evs.
Proof.
  destruct (_main X a s) as [o s'] eqn:E.
  assert (H : emits (login_as_asked a) (_main X a)).
  { unfold _main. emits_auto.
    - apply emits_compile_filters.
    - apply emits_login_as_asked.
    - unfold after_login. emits_auto.
      + eapply emits_weaken; [|apply emits_loops]. intros ev H.
        apply main_event_not_login. auto.
      + unfold on_interrupt. emits_auto.
      + eapply emits_weaken; [|apply emits_shutdown]. intros ev ->. exact I. }
  exact (H _ _ _ E).
Qed.

(** X4: without a login name the run makes no call that loads, checks or
    opens a session. *)
Theorem no_login_name_no_session_call (s : state W) :
  username a = None ->
  exists evs, trace (snd (_main X a s)) = trace s ++ evs /\
              Forall (fun ev => is_session_call ev = false) evs.
Proof.
  intros Hu. destruct (_main X a s) as [o s'] eqn:E.
  assert (H : emits (fun ev => is_session_call ev = false) (_main X a)).
  { unfold _main. emits_auto.
    - apply emits_compile_filters.
    - unfold login_phase. rewrite Hu. apply emits_ret.
    - unfold after_login. emits_auto.
      + eapply emits_weaken; [|apply emits_loops]. intros ev H. destruct H; reflexivity.
      + unfold on_interrupt. emits_auto.
      + eapply emits_weaken; [|apply emits_shutdown]. intros ev ->. reflexivity. }
  exact (H _ _ _ E).
Qed.

(** X5: a session that loads and that [test_login] confirms for the same
    user is reused: the login makes no login call and asks for no password. *)
Theorem confirmed_session_is_reused (user : string) (w1 w2 : W) (s : state W) :
  username a = Some user ->
  x_call X (ELoadSession user (sessionfile a)) (world s) = (Ret tt, w1) ->
  x_is_logged_in X w1 = true ->
  x_test_login X w1 = (Ret (Some user), w2) ->
  exists s',
    login_phase X a s = (Ret tt, s') /\
    trace s' = trace s ++ [ELoadSession user (sessionfile a); ETestLogin] /\
    log s' = log s ++ ["Logged in as " +:+ user +:+ "."] /\
    world s' = w2.
Proof.
  intros Hu Hload Hlog Htest. unfold login_phase. rewrite Hu.
  unfold bind, catch, call, perform, is_logged_in, context_log, ret.
  rewrite Hload. reduce_state. rewrite Hlog. reduce_state.
  rewrite Htest. reduce_state.
  rewrite bool_decide_eq_true_2 by reflexivity. reduce_state.
  eexists. split; [reflexivity|]. reduce_state.
  rewrite <- app_assoc. auto.
Qed.

(** X6: a session file that does not exist does not end the run: the error
    is printed only if the file was named on the command line, the login is
    announced and made the way the arguments ask for, and the session counts
    as logged in from there. *)
Theorem missing_session_file_logs_in (user msg : string) (w1 w2 : W) (s : state W) :
  username a = Some user ->
  x_call X (ELoadSession user (sessionfile a)) (world s) = (Raise (FileNotFoundError msg), w1) ->
  x_is_logged_in X w1 = false ->
  x_call X (login_call a user) w1 = (Ret tt, w2) ->
  exists s',
    login_phase X a s = (Ret tt, s') /\
    trace s' = trace s ++ [ELoadSession user (sessionfile a); login_call a user] /\
    log s' = log s ++ ["Session file does not exist yet - Logging in.";
                       "Logged in as " +:+ user +:+ "."] /\
    stderr s' = stderr s ++ (match sessionfile a with Some _ => [msg] | None => [] end) /\
    world s' = w2.
Proof.
  intros Hu Hload Hlog Hcall. unfold login_phase. rewrite Hu.
  unfold login_call in *.
  unfold bind, catch, call, perform, is_logged_in, context_log, print_stderr, ret.
  rewrite Hload. cbn [exn_str].
  destruct (sessionfile a) as [sf|];
    reduce_state; rewrite Hlog; reduce_state;
    destruct (password a) as [pw|]; reduce_state;
    rewrite Hcall; (eexists; split; [reflexivity|]);
    reduce_state; rewrite <- ?app_assoc, ?app_nil_r; auto.
Qed.

End Logins.

(* --------------------------------------------------------------------- *)
(** *** Relations between the states of a run *)

Section Follows.

Context {W : Type}.
Variable X : Externals W.
Variable R : state W -> state W -> Prop.
Hypothesis R_refl : forall s, R s s.
Hypothesis R_trans : forall s1 s2 s3, R s1 s2 -> R s2 s3 -> R s1 s3.

Lemma follows_same {A} (r : outcome A) : follows R (fun s : state W => (r, s)).
Proof. intros s o s' [= _ <-]. apply R_refl. Qed.

Lemma follows_update {A} (r : outcome A) (f : state W -> state W) :
  (forall s, R s (f s)) -> follows R (fun s => (r, f s)).
Proof. intros H s o s' [= _ <-]. apply H. Qed.

Lemma follows_read {A} (f : state W -> A) : follows R (fun s : state W => (Ret (f s), s)).
Proof. intros s o s' [= _ <-]. apply R_refl. Qed.

Lemma follows_perform {A} ev (f : W -> outcome A * W) :
  (forall s w, R s (set_world w (add_event ev s))) -> follows R (perform ev f).
Proof.
  intros H s o s'. unfold perform. destruct (f (world s)). intros [= _ <-]. apply H.
Qed.

Lemma follows_bind {A B} (m : M W A) (k : A -> M W B) :
  follows R m -> (forall x, follows R (k x)) -> follows R (bind m k).
Proof.
  intros Hm Hk s o s'. unfold bind. destruct (m s) as [[x|e] s0] eqn:E.
  - intros E2. eapply R_trans; [eapply Hm; eauto | eapply Hk; eauto].
  - intros [= _ <-]. eapply Hm; eauto.
Qed.

Lemma follows_catch {A} (m : M W A) (h : exn -> M W A) :
  follows R m -> (forall e, follows R (h e)) -> follows R (catch m h).
Proof.
  intros Hm Hh s o s'. unfold catch. destruct (m s) as [[x|e] s0] eqn:E.
  - intros [= _ <-]. eapply Hm; eauto.
  - intros E2. eapply R_trans; [eapply Hm; eauto | eapply Hh; eauto].
Qed.

Lemma follows_error_catcher info (body : M W unit) :
  (forall r s, R s (record_error r s)) ->
  follows R body -> follows R (error_catcher info body).
Proof.
  intros Hr Hb s o s'. unfold error_catcher. destruct (body s) as [[[]|e] s0] eqn:E.
  - intros [= _ <-]. eapply Hb; eauto.
  - destruct (is_InstaloaderException e); intros [= _ <-].
    + eapply R_trans; [eapply Hb; eauto | apply Hr].
    + eapply Hb; eauto.
Qed.

Lemma follows_for_each {A} (body : A -> M W unit) (l : list A) :
  (forall x, follows R (body x)) -> follows R (for_each body l).
Proof.
  intros Hb. induction l as [|x xs IH]; cbn [for_each].
  - apply (follows_same (Ret tt)).
  - apply follows_bind; auto.
Qed.

End Follows.

(** Goes through a piece of the driver for a relation that calls on
    collaborators, log lines and error records respect; the other updates of
    the state are left as goals. *)
Ltac follows_side :=
  first [ solve [auto]
        | match goal with
          | |- follows _ _ => idtac
          | _ => intros ?
          end ].

Ltac follows_step :=
  match goal with
  | |- follows _ (bind _ _) => apply follows_bind; follows_side
  | |- follows _ (catch _ _) => apply follows_catch; follows_side
  | |- follows _ (error_catcher _ _) => apply follows_error_catcher; follows_side
  | |- follows _ (for_each _ _) => apply follows_for_each; follows_side
  | |- follows _ (ret _) => apply follows_same; follows_side
  | |- follows _ (raise _) => apply follows_same; follows_side
  | |- follows _ (lift _) => apply follows_same; follows_side
  | |- follows _ (is_logged_in _) => apply follows_read; follows_side
  | |- follows _ (isfile _ _) => apply follows_read; follows_side
  | |- follows _ (context_log ?m) =>
      apply (follows_update _ (Ret tt) (add_log m)); follows_side
  | |- follows _ (print_stderr ?m) =>
      apply (follows_update _ (Ret tt) (add_stderr m)); follows_side
  | |- follows _ (construct ?ev) =>
      apply (follows_update _ (Ret tt) (add_event ev)); follows_side
  | |- follows _ (perform _ _) => apply follows_perform; follows_side
  | |- follows _ (call _ _) => apply follows_perform; follows_side
  | |- follows _ (match ?x with _ => _ end) => destruct x eqn:?
  | |- follows _ (if ?b then _ else _) => destruct b eqn:?
  end.

Ltac follows_auto := repeat follows_step.

(* --------------------------------------------------------------------- *)
(** *** The accounts that are downloaded *)

Section Accounts.

Context {W : Type}.
Variable X : Externals W.
Variables (a : main_args) (fs : filters).

Lemma profiles_grow_refl (s : state W) : profiles_grow s s.
Proof. unfold profiles_grow. set_solver. Qed.

Lemma profiles_grow_trans (s1 s2 s3 : state W) :
  profiles_grow s1 s2 -> profiles_grow s2 s3 -> profiles_grow s1 s3.
Proof. unfold profiles_grow. set_solver. Qed.

Lemma profiles_kept_refl (s : state W) : profiles_kept s s.
Proof. reflexivity. Qed.

Lemma profiles_kept_trans (s1 s2 s3 : state W) :
  profiles_kept s1 s2 -> profiles_kept s2 s3 -> profiles_kept s1 s3.
Proof. unfold profiles_kept. congruence. Qed.

(** The target loop only adds to the set of profiles. *)
Lemma target_step_grows target : follows profiles_grow (target_step X a fs target).
Proof.
  pose proof profiles_grow_refl. pose proof profiles_grow_trans.
  assert (forall r (s : state W), profiles_grow s (record_error r s))
    by (intros; unfold profiles_grow; cbn; set_solver).
  assert (forall ev (s : state W) w, profiles_grow s (set_world w (add_event ev s)))
    by (intros; unfold profiles_grow; cbn; set_solver).
  assert (forall m (s : state W), profiles_grow s (add_log m s))
    by (intros; unfold profiles_grow; cbn; set_solver).
  unfold target_step, target_body, file_target, sigil_target, rejected_by.
  follows_auto.
  all: try (intros s o s' [= _ <-]; unfold profiles_grow; cbn [profiles set_profiles];
            set_solver).
Qed.

(** The profile loop leaves the set of profiles alone. *)
Lemma profile_step_keeps target : follows profiles_kept (profile_step X a fs target).
Proof.
  pose proof profiles_kept_refl. pose proof profiles_kept_trans.
  assert (forall r (s : state W), profiles_kept s (record_error r s)) by reflexivity.
  assert (forall ev (s : state W) w, profiles_kept s (set_world w (add_event ev s)))
    by reflexivity.
  assert (forall m (s : state W), profiles_kept s (add_log m s)) by reflexivity.
  assert (forall ev (s : state W), profiles_kept s (add_event ev s)) by reflexivity.
  unfold profile_step, profile_body, anonymous_retry.
  follows_auto.
Qed.

Lemma loader_downloads_app (tr1 tr2 : list event) :
  loader_downloads (tr1 ++ tr2) = loader_downloads tr1 ++ loader_downloads tr2.
Proof. apply flat_map_app. Qed.

Lemma loader_downloads_none (evs : list event) :
  Forall (fun ev => loader_download ev = []) evs -> loader_downloads evs = [].
Proof.
  induction 1 as [|ev evs Hev _ IH]; [reflexivity|].
  unfold loader_downloads in *. cbn [flat_map]. rewrite Hev, IH. reflexivity.
Qed.

Lemma emits_no_download {A} (m : M W A) s o s' :
  emits (fun ev => loader_download ev = []) m -> m s = (o, s') ->
  loader_downloads (trace s') = loader_downloads (trace s).
Proof.
  intros Hm E. destruct (Hm _ _ _ E) as (evs & -> & F).
  rewrite loader_downloads_app, (loader_downloads_none _ F), app_nil_r. reflexivity.
Qed.

(** The target loop downloads no account. *)
Lemma target_step_no_download target :
  emits (fun ev => loader_download ev = []) (target_step X a fs target).
Proof.
  unfold target_step, target_body, file_target, sigil_target, rejected_by.
  emits_auto; reflexivity.
Qed.

Lemma catch_call_downloads ev (h : exn -> M W unit) s o s' :
  (forall e, emits (fun ev => loader_download ev = []) (h e)) ->
  catch (call X ev) h s = (o, s') ->
  loader_downloads (trace s') = loader_downloads (trace s) ++ loader_download ev.
Proof.
  intros Hh. unfold catch, call, perform.
  destruct (x_call X ev (world s)) as [[[]|e] w1].
  - intros [= _ <-]. cbn [trace set_world add_event]. rewrite loader_downloads_app.
    cbn. rewrite app_nil_r. reflexivity.
  - intros E2. rewrite (emits_no_download _ _ _ _ (Hh e) E2).
    cbn [trace set_world add_event]. rewrite loader_downloads_app.
    cbn. rewrite app_nil_r. reflexivity.
Qed.

Lemma error_catcher_trace info (body : M W unit) s o s' :
  error_catcher info body s = (o, s') ->
  exists o1 s1, body s = (o1, s1) /\ trace s' = trace s1.
Proof.
  unfold error_catcher. destruct (body s) as [[[]|e] s1].
  - intros [= _ <-]. eauto.
  - destruct (is_InstaloaderException e); intros [= _ <-]; eauto.
Qed.

(** A turn of the profile loop downloads its account through the loader
    once, whatever follows. *)
Lemma profile_step_downloads target s o s' :
  profile_step X a fs target s = (o, s') ->
  loader_downloads (trace s') = loader_downloads (trace s) ++ [target].
Proof.
  unfold profile_step. intros E.
  destruct (error_catcher_trace _ _ _ _ _ E) as (o1 & s1 & E1 & ->).
  unfold profile_body in E1.
  apply catch_call_downloads in E1; [exact E1|].
  intros e. unfold anonymous_retry. emits_auto; reflexivity.
Qed.

Lemma profile_loop_downloads (l : list string) s o s' :
  for_each (profile_step X a fs) l s = (o, s') ->
  exists l', loader_downloads (trace s') = loader_downloads (trace s) ++ l' /\
             l' `prefix_of` l /\ (o = Ret tt -> l' = l).
Proof.
  revert s. induction l as [|t l IH]; intros s; cbn [for_each].
  - intros [= <- <-]. exists []. rewrite app_nil_r. auto.
  - unfold bind. destruct (profile_step X a fs t s) as [[[]|e] s1] eqn:E1.
    + intros E2. destruct (IH _ E2) as (l' & T & P & C).
      exists (t :: l'). rewrite T, (profile_step_downloads _ _ _ _ E1), <- app_assoc.
      split; [reflexivity|]. split; [apply prefix_cons, P|]. intros Ho. f_equal. auto.
    + intros [= <- <-]. exists [t]. rewrite (profile_step_downloads _ _ _ _ E1).
      split; [reflexivity|]. split; [|discriminate]. apply prefix_cons, prefix_nil.
Qed.

Lemma set_order_NoDup (p : gset string) : NoDup (x_set_order X p).
Proof. rewrite (x_set_order_perm X p). apply NoDup_elements. Qed.

Lemma loops_downloads (s : state W) (o : outcome unit) (s' : state W) :
  loops X a fs s = (o, s') ->
  exists l,
    loader_downloads (trace s') = loader_downloads (trace s) ++ l /\
    l `prefix_of` x_set_order X (profiles s') /\
    (o = Ret tt -> l = x_set_order X (profiles s')).
Proof.
  unfold loops, bind.
  destruct (for_each (target_step X a fs) (targetlist a) s) as [[[]|e] s1] eqn:E1.
  - assert (T1 : loader_downloads (trace s1) = loader_downloads (trace s)).
    { eapply emits_no_download; [|exact E1]. apply emits_for_each, target_step_no_download. }
    set (order := x_set_order X (profiles s1)).
    destruct ((if (1 <? size (profiles s1))%nat
               then context_log ("Downloading " +:+ pretty (size (profiles s1)) +:+ " profiles: "
                                 +:+ PyStr.join " " order)
               else ret tt) s1) as [o2 s2] eqn:E2.
    assert (S2 : o2 = Ret tt /\ trace s2 = trace s1 /\ profiles s2 = profiles s1).
    { destruct (1 <? size (profiles s1))%nat; injection E2 as <- <-; auto. }
    destruct S2 as (-> & T2 & P2). intros E3.
    destruct (profile_loop_downloads _ _ _ _ E3) as (l & T & P & C).
    assert (K : profiles s' = profiles s1).
    { rewrite <- P2.
      apply (follows_for_each profiles_kept profiles_kept_refl profiles_kept_trans
               (profile_step X a fs) order profile_step_keeps _ _ _ E3). }
    exists l. rewrite T, T2, T1, K. fold order. auto.
  - intros [= <- <-]. exists []. rewrite app_nil_r.
    split; [|split; [apply prefix_nil|discriminate]].
    eapply emits_no_download; [|exact E1].
    apply emits_for_each, target_step_no_download.
Qed.

(** X7: the loops download an account through the loader at most once,
    however often it is named as a target or comes up as a followee, and only
    accounts of the set of profiles; when the loops end normally they have
    downloaded every account of the set. *)
Theorem account_downloaded_at_most_once (s : state W) (o : outcome unit) (s' : state W) :
  loops X a fs s = (o, s') ->
  exists l,
    loader_downloads (trace s') = loader_downloads (trace s) ++ l /\
    NoDup l /\
    (forall t, t ∈ l -> t ∈ profiles s') /\
    (o = Ret tt -> l ≡ₚ elements (profiles s')).
Proof.
  intros E. destruct (loops_downloads _ _ _ E) as (l & T & [k Hk] & C).
  exists l. split; [exact T|].
  pose proof (set_order_NoDup (profiles s')) as N.
  split; [|split].
  - rewrite Hk in N. apply NoDup_app in N. tauto.
  - intros t Ht. apply elem_of_elements.
    rewrite <- (x_set_order_perm X (profiles s')), Hk.
    apply elem_of_app. auto.
  - intros Ho. rewrite (C Ho). apply x_set_order_perm.
Qed.

Lemma plain_target_step (target name : string) (s : state W) :
  is_descriptor_file X target s = false ->
  classify_sigil (PyStr.rstrip "/" target) = Ret (AccountName name) ->
  target_step X a fs target s = (Ret tt, set_profiles (profiles s ∪ list_to_set [name]) s).
Proof.
  intros Hs Hc. rewrite target_step_unfold, Hs.
  cbn [target_body target_key]. unfold error_catcher, sigil_target, bind, lift.
  rewrite Hc. reflexivity.
Qed.

Lemma plain_target_in_profiles (pre post : list string) (target name : string) s s0 s' :
  for_each (target_step X a fs) (pre ++ target :: post) s = (Ret tt, s') ->
  for_each (target_step X a fs) pre s = (Ret tt, s0) ->
  is_descriptor_file X target s0 = false ->
  classify_sigil (PyStr.rstrip "/" target) = Ret (AccountName name) ->
  name ∈ profiles s'.
Proof.
  intros E Hpre Hs Hc. rewrite (for_each_app _ _ _ _ _ Hpre) in E.
  cbn [for_each] in E. unfold bind in E. rewrite (plain_target_step _ _ _ Hs Hc) in E.
  pose proof (follows_for_each profiles_grow profiles_grow_refl profiles_grow_trans
                (target_step X a fs) post target_step_grows _ _ _ E) as G.
  unfold profiles_grow in G. cbn [profiles set_profiles] in G. set_solver.
Qed.

Lemma loops_ret_inv s s' :
  loops X a fs s = (Ret tt, s') ->
  exists s1, for_each (target_step X a fs) (targetlist a) s = (Ret tt, s1) /\
             profiles s' = profiles s1.
Proof.
  unfold loops, bind.
  destruct (for_each (target_step X a fs) (targetlist a) s) as [[[]|e] s1]; [|discriminate].
  intros E. exists s1. split; [reflexivity|].
  destruct (1 <? size (profiles s1))%nat; cbn in E;
    apply (follows_for_each profiles_kept profiles_kept_refl profiles_kept_trans
             (profile_step X a fs) _ profile_step_keeps _ _ _ E).
Qed.

(** X8: when the loops end normally, an account named as a plain target, with
    or without trailing separators, has been downloaded through the loader
    exactly once.  A plain target is one that is not taken as a descriptor
    file when its turn comes (it has no descriptor suffix, or no such file
    exists then) and that has no sigil. *)
Theorem plain_target_downloaded_once
    (pre post : list string) (target name : string) (s s0 s' : state W) :
  loops X a fs s = (Ret tt, s') ->
  targetlist a = pre ++ target :: post ->
  for_each (target_step X a fs) pre s = (Ret tt, s0) ->
  is_descriptor_file X target s0 = false ->
  classify_sigil (PyStr.rstrip "/" target) = Ret (AccountName name) ->
  exists before after,
    loader_downloads (trace s') = loader_downloads (trace s) ++ before ++ name :: after /\
    (name ∉ before) /\ (name ∉ after).
Proof.
  intros E Hl Hpre Hs Hc.
  destruct (loops_ret_inv _ _ E) as (s1 & E1 & K). rewrite Hl in E1.
  pose proof (plain_target_in_profiles _ _ _ _ _ _ _ E1 Hpre Hs Hc) as Hp.
  rewrite <- K in Hp.
  destruct (loops_downloads _ _ _ E) as (l & T & _ & C).
  pose proof (set_order_NoDup (profiles s')) as N. rewrite <- (C eq_refl) in N.
  assert (Hn : name ∈ l).
  { rewrite (C eq_refl), (x_set_order_perm X (profiles s')). apply elem_of_elements, Hp. }
  apply list_elem_of_split in Hn. destruct Hn as (before & after & ->).
  exists before, after. split; [exact T|].
  apply NoDup_app in N. destruct N as (_ & N1 & N2). apply NoDup_cons in N2.
  split; [|tauto]. intros Hb. apply (N1 _ Hb). left.
Qed.

End Accounts.

(* --------------------------------------------------------------------- *)
(** *** Single turns of the loops *)

Section Turns.

Context {W : Type}.
Variable X : Externals W.
Variables (a : main_args) (fs : filters).

(** X9: a followee target adds the followees of the named account to the set
    of profiles and nothing else: it downloads nothing, and the named account
    itself is not added unless it is among its followees. *)
Theorem followee_target_adds_followees
    (target name : string) (followees : list string) (w1 w2 : W) (s : state W) :
  is_descriptor_file X target s = false ->
  classify_sigil (PyStr.rstrip "/" target) = Ret (AccountFollowees name) ->
  x_call X (EFromUsername name) (world s) = (Ret tt, w1) ->
  x_get_followees X name w1 = (Ret followees, w2) ->
  exists s',
    target_step X a fs target s = (Ret tt, s') /\
    profiles s' = profiles s ∪ list_to_set followees /\
    trace s' = trace s ++ [EFromUsername name; EGetFollowees name] /\
    error_log s' = error_log s /\
    (name ∉ profiles s -> name ∉ followees -> name ∉ profiles s').
Proof.
  intros Hs Hc Hfrom Hget. rewrite target_step_unfold, Hs.
  cbn [target_body target_key].
  unfold error_catcher, sigil_target, bind, lift. rewrite Hc.
  unfold context_log, call, perform, add_profiles. reduce_state.
  rewrite Hfrom. reduce_state. rewrite Hget.
  eexists. split; [reflexivity|]. reduce_state. rewrite <- app_assoc.
  repeat split; try reflexivity. intros Hnew Hnot.
  apply not_elem_of_union. split; [exact Hnew|]. rewrite elem_of_list_to_set. exact Hnot.
Qed.

(** X10: the anonymous retry has a boundary of its own: whether it succeeds
    or fails with a library fault, the turn of the account ends normally; the
    not-found fault of the first attempt is logged, not recorded, and a fault
    of the retry is recorded without the name of the account. *)
Theorem retry_fault_is_recorded_without_target
    (target msg : string) (w1 w2 : W) (o2 : outcome unit) (s : state W) :
  x_call X (EDownloadProfile TheLoader (authenticated_args a fs target)) (world s)
    = (Raise (ProfileNotExistsException msg), w1) ->
  x_is_logged_in X w1 = true ->
  x_call X (EDownloadProfile AnonymousLoader (anonymous_args a fs target)) w1 = (o2, w2) ->
  match o2 with Ret _ => True | Raise e2 => is_InstaloaderException e2 = true end ->
  exists s',
    profile_step X a fs target s = (Ret tt, s') /\
    error_log s' = error_log s ++
      match o2 with Ret _ => [] | Raise e2 => [(None, e2)] end /\
    log s' = log s ++
      [msg; "Trying again anonymously, helps in case you are just blocked."].
Proof.
  intros Hfirst Hlog Hretry Ho.
  unfold profile_step, profile_body, anonymous_retry, error_catcher, catch, bind,
    is_logged_in, context_log, construct, call, perform.
  cbv beta. rewrite Hfirst. reduce_state. rewrite Hlog. reduce_state. rewrite Hretry.
  destruct o2 as [[]|e2].
  - eexists. split; [reflexivity|]. reduce_state.
    rewrite app_nil_r, <- app_assoc. auto.
  - rewrite Ho. eexists. split; [reflexivity|]. reduce_state.
    rewrite <- app_assoc. auto.
Qed.

(** X11: a [Post] descriptor that the post filter rejects is not downloaded:
    the file is loaded, the filter is evaluated, the skip is logged and the
    turn ends normally without an error record; one that the filter accepts
    is handed to [download_post] with the directory of the file. *)
Theorem rejected_post_is_skipped
    (target repr : string) (code : ast) (accept : bool) (w1 w2 : W) (s : state W) :
  has_descriptor_suffix target = true ->
  x_isfile X target (world s) = true ->
  x_load_structure X target (world s) = (Ret (PostS repr), w1) ->
  post_filter fs = Some code ->
  x_filter X code (PostS repr) w1 = (Ret accept, w2) ->
  exists o s',
    target_step X a fs target s = (o, s') /\
    trace s' = trace s ++ [ELoadStructure target; EFilter code (PostS repr)] ++
               (if accept then [EDownloadPost (PostS repr) (x_dirname X target)] else []) /\
    (accept = false ->
     o = Ret tt /\ error_log s' = error_log s /\
     log s' = log s ++ ["<" +:+ repr +:+ " (" +:+ target +:+ ") skipped>"]).
Proof.
  intros Hs Hf Hload Hpf Hfilter. rewrite target_step_unfold. unfold is_descriptor_file.
  rewrite Hs, Hf. cbn [andb target_body target_key].
  unfold error_catcher, file_target, bind, perform. rewrite Hload.
  unfold rejected_by. rewrite Hpf. unfold bind, perform, ret. reduce_state. rewrite Hfilter.
  destruct accept; cbn [negb].
  - unfold context_log, call, perform. reduce_state.
    destruct (x_call X (EDownloadPost (PostS repr) (x_dirname X target)) w2) as [[[]|e] w3].
    + eexists _, _. split; [reflexivity|]. reduce_state. rewrite <- !app_assoc.
      split; [reflexivity|discriminate].
    + destruct (is_InstaloaderException e);
        (eexists _, _; split; [reflexivity|]; reduce_state; rewrite <- !app_assoc;
         split; [reflexivity|discriminate]).
  - unfold context_log. eexists _, _. split; [reflexivity|]. reduce_state.
    rewrite <- !app_assoc. cbn [structure_str]. auto.
Qed.

(** X12: an exception that is neither a library fault nor an interrupt,
    raised while a target is processed (by a filter that is evaluated, say),
    ends the run there: the targets that follow are not processed, no account
    is downloaded and the session is not saved. *)
Theorem foreign_exception_ends_the_run
    (pre post : list string) (target : string) (e : exn) (s s1 s2 : state W) :
  targetlist a = pre ++ target :: post ->
  for_each (target_step X a fs) pre (set_profiles ∅ s) = (Ret tt, s1) ->
  target_body X a fs target (is_descriptor_file X target s1) s1 = (Raise e, s2) ->
  is_InstaloaderException e = false ->
  e <> KeyboardInterrupt ->
  after_login X a fs s = (Raise e, s2).
Proof.
  intros Ht Hpre Hbody He Hk.
  assert (Hstep : target_step X a fs target s1 = (Raise e, s2)).
  { rewrite target_step_unfold. unfold error_catcher. rewrite Hbody, He. reflexivity. }
  assert (Hloop : for_each (target_step X a fs) (targetlist a) (set_profiles ∅ s)
                  = (Raise e, s2)).
  { rewrite Ht, (for_each_app _ _ _ _ _ Hpre). cbn [for_each]. unfold bind.
    rewrite Hstep. reflexivity. }
  unfold after_login, bind at 1, bind at 1, catch, loops, bind at 1. rewrite Hloop.
  destruct e; try reflexivity. congruence.
Qed.


(** X14: an interrupt during the target loop skips the targets that follow
    and every account: after it the run downloads no account, prints the
    notice and goes on to its shutdown. *)
Theorem interrupt_in_target_loop (s s1 : state W) :
  for_each (target_step X a fs) (targetlist a) (set_profiles ∅ s)
    = (Raise KeyboardInterrupt, s1) ->
  after_login X a fs s = shutdown X a (add_stderr (nl +:+ "Interrupted by user.") s1) /\
  loader_downloads (trace (snd (after_login X a fs s))) = loader_downloads (trace s).
Proof.
  intros Hloop.
  assert (E : after_login X a fs s
              = shutdown X a (add_stderr (nl +:+ "Interrupted by user.") s1)).
  { unfold after_login, bind at 1, bind at 1, catch, loops, bind at 1. rewrite Hloop.
    reflexivity. }
  split; [exact E|]. rewrite E.
  destruct (shutdown X a (add_stderr (nl +:+ "Interrupted by user.") s1)) as [o s'] eqn:Es.
  cbn [snd].
  assert (Hsd : emits (fun ev => loader_download ev = []) (shutdown X a)).
  { eapply emits_weaken; [|apply emits_shutdown]. intros ev ->. reflexivity. }
  rewrite (emits_no_download _ _ _ _ Hsd Es). cbn [trace add_stderr].
  apply (emits_no_download _ _ _ _
           (emits_for_each _ _ _ (target_step_no_download X a fs)) Hloop).
Qed.

End Turns.

(* --------------------------------------------------------------------- *)
(** *** [main] *)

Section Main.

Context {W : Type}.
Variable X : Externals W.
Variable args : cli_args.

(** X15: a removed target on the command line ends [main] before it does
    anything: no loader is constructed, no call is made and nothing is
    logged; the exit status is 1. *)
Theorem removed_target_fails_fast (s : state W) :
  arg_stories_only args = false ->
  in_list ":feed-all" (arg_profile args) || in_list ":feed-liked" (arg_profile args) = true ->
  exists msg s',
    main X args s = (Raise (SystemExit 1 msg), s') /\
    exit_status (fst (main X args s)) = 1 /\
    trace s' = trace s /\ log s' = log s.
Proof.
  intros Hso Hin. unfold main, catch, main_body, bind at 1, check_stories. rewrite Hso.
  unfold bind at 2, bind at 1, check_removed_targets. rewrite Hin.
  destruct (arg_login args); [|destruct (arg_stories args || false)];
    cbn; eexists _, _; repeat split; reflexivity.
Qed.

Lemma emits_bind_result {A B} (P : event -> Prop) (Q : A -> Prop)
    (m : M W A) (k : A -> M W B) :
  (forall s x s', m s = (Ret x, s') -> Q x) ->
  emits P m -> (forall x, Q x -> emits P (k x)) -> emits P (bind m k).
Proof.
  intros HQ Hm Hk s o s'. unfold bind. destruct (m s) as [[x|e] s1] eqn:E.
  - intros E2. destruct (Hm _ _ _ E) as (evs1 & T1 & F1).
    destruct (Hk x (HQ _ _ _ E) _ _ _ E2) as (evs2 & T2 & F2).
    exists (evs1 ++ evs2). rewrite T2, T1, app_assoc. split; [reflexivity|].
    apply Forall_app; auto.
  - intros [= _ <-]. eapply Hm; eauto.
Qed.

Lemma emits_main_without_stories (a : main_args) :
  stories a = false -> emits without_stories (_main X a).
Proof.
  intros Hst. eapply emits_weaken; [|apply emits__main].
  intros ev [H|[H| ->]]; [destruct H; exact I| |exact I].
  destruct H; cbn; try exact I. rewrite Hst. reflexivity.
Qed.

(** X16: without a login name no download of an account asks for stories,
    whatever the stories options say. *)
Theorem stories_need_a_login (s : state W) :
  arg_login args = None ->
  exists evs, trace (snd (main X args s)) = trace s ++ evs /\
              Forall without_stories evs.
Proof.
  intros Hl. destruct (main X args s) as [o s'] eqn:E.
  assert (H : emits without_stories (main X args)).
  { unfold main. apply emits_catch; [|intros e; unfold fatal; emits_auto].
    unfold main_body.
    apply (emits_bind_result _ (fun b => b = false)).
    - intros s0 b s1. unfold check_stories. rewrite Hl.
      destruct (arg_stories args) eqn:Es, (arg_stories_only args); cbn;
        intros [= <- _]; reflexivity.
    - unfold check_stories. emits_auto.
    - intros b ->. unfold check_removed_targets, check_captions.
      emits_auto; try exact I. apply emits_main_without_stories. reflexivity. }
  exact (H _ _ _ E).
Qed.


End Main.

Import Samples MoreSamples.

Lemma no_login_name_no_session_call_witness :
  Forall (fun ev => is_session_call ev = false)
    (trace (snd (_main sample_world (sample_main_args ["alice"; "#travel"] None)
                   (initial_state false)))).
Proof.
  destruct (no_login_name_no_session_call sample_world
              (sample_main_args ["alice"; "#travel"] None) (initial_state false) eq_refl)
    as (evs & -> & F).
  exact F.
Defined.

Lemma confirmed_session_is_reused_witness :
  exists s',
    login_phase strict_world (sample_main_args [] (Some "me")) (initial_state false)
      = (Ret tt, s') /\
    trace s' = [ELoadSession "me" None; ETestLogin].
Proof.
  destruct (confirmed_session_is_reused strict_world (sample_main_args [] (Some "me"))
              "me" true true (initial_state false) eq_refl eq_refl eq_refl eq_refl)
    as (s' & E & T & _).
  exists s'. split; [exact E | exact T].
Defined.

Lemma missing_session_file_logs_in_witness :
  exists s',
    login_phase sample_world (sample_main_args [] (Some "me")) (initial_state false)
      = (Ret tt, s') /\
    trace s' = [ELoadSession "me" None; ELogin "me" "secret"] /\
    stderr s' = [] /\ world s' = true.
Proof.
  destruct (missing_session_file_logs_in sample_world (sample_main_args [] (Some "me"))
              "me" "No such file or directory" false true (initial_state false)
              eq_refl eq_refl eq_refl eq_refl)
    as (s' & E & T & _ & Se & Wo).
  exists s'. repeat split; assumption.
Defined.

Lemma account_downloaded_at_most_once_witness :
  exists s' l,
    loops sample_world (sample_main_args ["alice"; "bob/"; "alice/"; "@x"] None)
      no_filters (initial_state false) = (Ret tt, s') /\
    loader_downloads (trace s') = l /\ NoDup l /\ length l = 3.
Proof.
  destruct (loops sample_world (sample_main_args ["alice"; "bob/"; "alice/"; "@x"] None)
              no_filters (initial_state false)) as [o s'] eqn:E.
  destruct (account_downloaded_at_most_once _ _ _ _ _ _ E) as (l & T & N & _ & P).
  vm_compute in E. injection E as <- <-.
  eexists _, l. split; [reflexivity|]. split; [exact T|]. split; [exact N|].
  rewrite (Permutation_length (P eq_refl)). vm_compute. reflexivity.
Defined.

Lemma plain_target_downloaded_once_witness :
  exists s' before after,
    has_descriptor_suffix "notes.json" = true /\
    loops strict_world (sample_main_args ["alice"; "notes.json"; "alice/"] None)
      no_filters (initial_state false) = (Ret tt, s') /\
    loader_downloads (trace s') = before ++ "notes.json" :: after /\
    ("notes.json" ∉ before) /\ ("notes.json" ∉ after).
Proof.
  destruct (loops strict_world (sample_main_args ["alice"; "notes.json"; "alice/"] None)
              no_filters (initial_state false)) as [o s'] eqn:E.
  assert (Ho : o = Ret tt) by (vm_compute in E; congruence). subst o.
  edestruct (plain_target_downloaded_once strict_world
               (sample_main_args ["alice"; "notes.json"; "alice/"] None) no_filters
               ["alice"] ["alice/"] "notes.json" "notes.json" (initial_state false))
    as (b & c & T & Hb & Hc).
  - exact E.
  - reflexivity.
  - vm_compute. reflexivity.
  - reflexivity.
  - reflexivity.
  - exists s', b, c. auto.
Defined.

Lemma followee_target_adds_followees_witness :
  exists s',
    has_descriptor_suffix "@x.json" = true /\
    target_step strict_world (sample_main_args ["@x.json"] (Some "me")) no_filters "@x.json"
      (initial_state true) = (Ret tt, s') /\
    profiles s' = ∅ ∪ list_to_set ["bob"] /\
    "x.json" ∉ profiles s'.
Proof.
  destruct (followee_target_adds_followees strict_world
              (sample_main_args ["@x.json"] (Some "me")) no_filters "@x.json" "x.json" ["bob"]
              true true (initial_state true) eq_refl eq_refl eq_refl eq_refl)
    as (s' & E & P & _ & _ & N).
  exists s'. split; [reflexivity|]. split; [exact E|]. split; [exact P|].
  apply N.
  - cbn [profiles initial_state]. apply not_elem_of_empty.
  - intros H. apply list_elem_of_In in H. cbn in H.
    destruct H as [H|[]]; discriminate H.
Defined.

Lemma retry_fault_is_recorded_without_target_witness :
  exists s',
    profile_step strict_world (sample_main_args ["ghost"] (Some "me")) no_filters "ghost"
      (initial_state true) = (Ret tt, s') /\
    error_log s' = [(None, InstaloaderException "Login required.")].
Proof.
  destruct (retry_fault_is_recorded_without_target strict_world
              (sample_main_args ["ghost"] (Some "me")) no_filters "ghost"
              "Profile ghost does not exist." true true
              (Raise (InstaloaderException "Login required.")) (initial_state true)
              eq_refl eq_refl eq_refl eq_refl) as (s' & E & L & _).
  exists s'. split; [exact E | exact L].
Defined.

Lemma rejected_post_is_skipped_witness :
  exists s',
    target_step strict_world (sample_main_args ["post.json"] None) both_filters "post.json"
      (initial_state false) = (Ret tt, s') /\
    trace s' = [ELoadStructure "post.json"; EFilter code_is_video (PostS "<Post B1>")] /\
    log s' = ["<<Post B1> (post.json) skipped>"].
Proof.
  destruct (rejected_post_is_skipped strict_world (sample_main_args ["post.json"] None)
              both_filters "post.json" "<Post B1>" code_is_video false false false
              (initial_state false) eq_refl eq_refl eq_refl eq_refl eq_refl)
    as (o & s' & E & T & H).
  destruct (H eq_refl) as (-> & _ & L).
  exists s'. split; [exact E|]. split; [exact T | exact L].
Defined.

Lemma foreign_exception_ends_the_run_witness :
  exists s',
    after_login strict_world (sample_main_args ["#travel"; "story.json"; "alice"] (Some "me"))
      both_filters (initial_state true)
    = (Raise (OtherError "TypeError: unorderable types"), s') /\
    trace s' = [EDownloadHashtag "travel" None false (Some code_is_video);
                ELoadStructure "story.json";
                EFilter code_is_video (StoryItemS "<StoryItem 7>")].
Proof.
  eexists. split.
  - eapply (foreign_exception_ends_the_run strict_world
              (sample_main_args ["#travel"; "story.json"; "alice"] (Some "me")) both_filters
              ["#travel"] ["alice"] "story.json").
    + reflexivity.
    + vm_compute. reflexivity.
    + vm_compute. reflexivity.
    + reflexivity.
    + discriminate.
  - reflexivity.
Defined.


Lemma interrupt_in_target_loop_witness :
  exists s1,
    for_each (target_step sample_world (sample_main_args ["alice"; "#stop"; "bob"] None)
                no_filters)
      ["alice"; "#stop"; "bob"] (set_profiles ∅ (initial_state false))
    = (Raise KeyboardInterrupt, s1) /\
    loader_downloads
      (trace (snd (after_login sample_world (sample_main_args ["alice"; "#stop"; "bob"] None)
                     no_filters (initial_state false)))) = [].
Proof.
  destruct (for_each (target_step sample_world
                        (sample_main_args ["alice"; "#stop"; "bob"] None) no_filters)
              ["alice"; "#stop"; "bob"] (set_profiles ∅ (initial_state false)))
    as [o s1] eqn:E.
  assert (Ho : o = Raise KeyboardInterrupt) by (vm_compute in E; congruence). subst o.
  exists s1. split; [reflexivity|].
  exact (proj2 (interrupt_in_target_loop sample_world
                  (sample_main_args ["alice"; "#stop"; "bob"] None) no_filters
                  (initial_state false) s1 E)).
Defined.

Lemma removed_target_fails_fast_witness :
  exists msg s',
    main sample_world (sample_cli ["alice"; ":feed-liked"] (Some "me")) (initial_state false)
    = (Raise (SystemExit 1 msg), s') /\ trace s' = [].
Proof.
  destruct (removed_target_fails_fast sample_world
              (sample_cli ["alice"; ":feed-liked"] (Some "me")) (initial_state false)
              eq_refl eq_refl) as (msg & s' & E & _ & T & _).
  exists msg, s'. split; [exact E | exact T].
Defined.

Lemma stories_need_a_login_witness :
  Forall without_stories
    (trace (snd (main sample_world (cli_stories_without_login ["alice"; "bob"])
                   (initial_state false)))).
Proof.
  destruct (stories_need_a_login sample_world (cli_stories_without_login ["alice"; "bob"])
              (initial_state false) eq_refl) as (evs & -> & F).
  exact F.
Defined.



End MoreDriverFacts.
